(** * Warbler: a shallow embedding of the request handlers of [app.py]

    The handlers of [app.py] are embedded as computations in a small
    state-and-exception monad over the Flask session, the flashed
    messages, the committed database and the unit of work of
    [db.session].  A request is served by [app]: the before-request
    function, the view of the route, and the end of the request, where
    what was not committed is dropped.

    The model classes and the forms are defined in [models.py] and
    [forms.py], which this development does not have before it: what the
    handlers need from them is either a parameter (constants, field
    validators, password hashing) or a definition marked as modelled from
    the specification.  The pages that only read ([/users], the profile,
    follower and like pages, a single message) and the cache header of
    the after-request function are left out; templates are names. *)

From stdpp Require Import base option list gmap strings pretty sorting.

Local Open Scope string_scope.
Local Open Scope nat_scope.
Local Open Scope list_scope.

(** ** Data model *)

Module User.
Record t := mk {
  id : nat;
  username : string;
  email : string;
  password : string;          (* the stored hash *)
  bio : string;
  image_url : string;
  header_image_url : string
}.

Global Instance eq_dec : EqDecision t.
Proof. solve_decision. Defined.

Definition set_username (v : string) (u : t) : t :=
  mk (id u) v (email u) (password u) (bio u) (image_url u) (header_image_url u).
Definition set_email (v : string) (u : t) : t :=
  mk (id u) (username u) v (password u) (bio u) (image_url u) (header_image_url u).
Definition set_bio (v : string) (u : t) : t :=
  mk (id u) (username u) (email u) (password u) v (image_url u) (header_image_url u).
Definition set_image_url (v : string) (u : t) : t :=
  mk (id u) (username u) (email u) (password u) (bio u) v (header_image_url u).
Definition set_header_image_url (v : string) (u : t) : t :=
  mk (id u) (username u) (email u) (password u) (bio u) (image_url u) v.
End User.

Module Message.
Record t := mk {
  id : nat;
  text : string;
  timestamp : nat;
  user_id : nat                (* the owner *)
}.

Global Instance eq_dec : EqDecision t.
Proof. solve_decision. Defined.
End Message.

(** The two association tables.  A row of [Follow] says that
    [follower_id] follows [followed_id]; a row of [Like] says that
    [user_id] likes [message_id].  The follows table has no uniqueness
    constraint on the pair, and the likes table is taken alike: both are
    lists in which a pair may occur more than once. *)
Module Follow.
Record t := mk { follower_id : nat; followed_id : nat }.

Global Instance eq_dec : EqDecision t.
Proof. solve_decision. Defined.
End Follow.

Module Like.
Record t := mk { user_id : nat; message_id : nat }.

Global Instance eq_dec : EqDecision t.
Proof. solve_decision. Defined.
End Like.

Record Database := mkDatabase {
  users : list User.t;
  messages : list Message.t;
  follows : list Follow.t;
  likes : list Like.t;
  user_seq : nat;                (* next value of the users id sequence *)
  message_seq : nat              (* next value of the messages id sequence *)
}.

Global Instance Database_eq_dec : EqDecision Database.
Proof. solve_decision. Defined.

(** ** What the handlers import from [models.py] and [forms.py] *)

(** Constants and the password hashing of [models.py]. *)
Class Models := {
  DEFAULT_IMAGE_URL : string;
  DEFAULT_HEADER_IMAGE_URL : string;
  generate_password_hash : string → string;
  check_password_hash : string → string → bool
}.

(** The field validators of the forms of [forms.py]: each one decides
    whether the submitted fields pass validation, the CSRF token apart. *)
Class Forms := {
  UserAddForm : gmap string string → bool;
  LoginForm : gmap string string → bool;
  MessageForm : gmap string string → bool;
  UserProfileEditForm : gmap string string → bool
}.

(** Modelled from the spec: [CSRFForm] of [forms.py], a form that has no
    field of its own and only carries the token tied to the session. *)
Definition CSRFForm : gmap string string → bool := λ _, true.

(** ** Requests, responses, exceptions *)

Inductive Method := GET | POST.

Global Instance Method_eq_dec : EqDecision Method.
Proof. solve_decision. Defined.

Record Request := mkRequest {
  method : Method;
  form : gmap string string;     (* request.form *)
  now : nat                      (* the clock, for timestamp defaults *)
}.

Inductive Exn :=
| Unauthorized                   (* werkzeug.exceptions.Unauthorized, 401 *)
| NotFound                       (* raised by get_or_404, 404 *)
| BadRequestKeyError (key : string)  (* request.form[key], key missing, 400 *)
| MethodNotAllowed               (* the route does not take the method, 405 *)
| ValueError                     (* list.remove(x), x not in list *)
| IntegrityError.                (* sqlalchemy.exc.IntegrityError *)

Global Instance Exn_eq_dec : EqDecision Exn.
Proof. solve_decision. Defined.

(** Values handed to a template by keyword. *)
Inductive Value :=
| VForm (name : string)
| VUser (u : User.t)
| VMessages (ms : list Message.t).

Inductive Response :=
| Redirect (location : string)
| RenderTemplate (template : string) (context : list (string * Value))
| ReturnedException (e : Exn).   (* the view *returns* an HTTPException *)

Inductive Result (A : Type) :=
| Return (a : A)
| Raise (e : Exn).
Arguments Return {A} a.
Arguments Raise {A} e.

(** The HTTP status the framework answers with. *)
Definition exn_status (e : Exn) : nat :=
  match e with
  | Unauthorized => 401
  | NotFound => 404
  | BadRequestKeyError _ => 400
  | MethodNotAllowed => 405
  | ValueError | IntegrityError => 500
  end.

Definition status (r : Result Response) : nat :=
  match r with
  | Return (Redirect _) => 302
  | Return (RenderTemplate _ _) => 200
  | Return (ReturnedException e) => exn_status e
  | Raise e => exn_status e
  end.

(** ** State *)

(** What persists between requests. *)
Record World := mkWorld {
  db : Database;                       (* committed rows *)
  session : gmap string nat;           (* the Flask session *)
  csrf_secret : option string;         (* the token Flask-WTF keeps in the session *)
  flashes : list (string * string)     (* flashed (category, message) pairs *)
}.

(** What a handler runs on: the world, and the unit of work of
    [db.session].  [orm] is the database as the session sees it (object
    attributes are read from and written to it); [pending] lists the ids
    of the user rows that are new or dirty and that the next flush
    writes. *)
Record Ctx := mkCtx {
  store : Database;
  orm : Database;
  pending : list nat;
  c_session : gmap string nat;
  c_csrf_secret : option string;
  c_flashes : list (string * string)
}.

Definition enter (w : World) : Ctx :=
  mkCtx (db w) (db w) [] (session w) (csrf_secret w) (flashes w).

(** End of the request: the session is removed, what was not committed is
    rolled back. *)
Definition leave (c : Ctx) : World :=
  mkWorld (store c) (c_session c) (c_csrf_secret c) (c_flashes c).

(** ** The monad of handlers *)

Definition M (A : Type) : Type := Ctx → Ctx * Result A.

Definition ret {A} (a : A) : M A := λ c, (c, Return a).

Definition bind {A B} (m : M A) (f : A → M B) : M B := λ c,
  match m c with
  | (c', Return a) => f a c'
  | (c', Raise e) => (c', Raise e)
  end.

Declare Scope M_scope.
Delimit Scope M_scope with M.
Bind Scope M_scope with M.
Notation "x ← y ; z" := (bind y (λ x, z)) (only parsing) : M_scope.
Notation "x ;; z" := (bind x (λ _, z)) (only parsing) : M_scope.
Local Open Scope M_scope.

Definition raise {A} (e : Exn) : M A := λ c, (c, Raise e).
Definition gets {A} (f : Ctx → A) : M A := λ c, (c, Return (f c)).
Definition modify (f : Ctx → Ctx) : M unit := λ c, (f c, Return ()).

(** [try: body except e: handler]. *)
Definition try_except {A} (body : M A) (e : Exn) (handler : M A) : M A := λ c,
  match body c with
  | (c', Raise e') => if decide (e' = e) then handler c' else (c', Raise e')
  | r => r
  end.

(** [for x in l: body]. *)
Fixpoint for_each {A} (l : list A) (body : A → M unit) : M unit :=
  match l with
  | [] => ret ()
  | x :: l' => body x;; for_each l' body
  end.

Definition set_orm (d : Database) (c : Ctx) : Ctx :=
  mkCtx (store c) d (pending c) (c_session c) (c_csrf_secret c) (c_flashes c).
Definition set_store (d : Database) (c : Ctx) : Ctx :=
  mkCtx d (orm c) (pending c) (c_session c) (c_csrf_secret c) (c_flashes c).
Definition set_pending (p : list nat) (c : Ctx) : Ctx :=
  mkCtx (store c) (orm c) p (c_session c) (c_csrf_secret c) (c_flashes c).
Definition set_session (s : gmap string nat) (c : Ctx) : Ctx :=
  mkCtx (store c) (orm c) (pending c) s (c_csrf_secret c) (c_flashes c).
Definition set_flashes (f : list (string * string)) (c : Ctx) : Ctx :=
  mkCtx (store c) (orm c) (pending c) (c_session c) (c_csrf_secret c) f.

(** [flash(message, category)]; the category defaults to ["message"]. *)
Definition flash (message category : string) : M unit :=
  modify (λ c, set_flashes (c_flashes c ++ [(category, message)]) c).

(** ** The object-relational mapper *)

Definition with_users (us : list User.t) (d : Database) : Database :=
  mkDatabase us (messages d) (follows d) (likes d) (user_seq d) (message_seq d).
Definition with_messages (ms : list Message.t) (d : Database) : Database :=
  mkDatabase (users d) ms (follows d) (likes d) (user_seq d) (message_seq d).
Definition with_follows (fs : list Follow.t) (d : Database) : Database :=
  mkDatabase (users d) (messages d) fs (likes d) (user_seq d) (message_seq d).
Definition with_likes (ls : list Like.t) (d : Database) : Database :=
  mkDatabase (users d) (messages d) (follows d) ls (user_seq d) (message_seq d).

Definition find_user (d : Database) (uid : nat) : option User.t :=
  List.find (λ u, bool_decide (User.id u = uid)) (users d).

Definition find_message (d : Database) (mid : nat) : option Message.t :=
  List.find (λ m, bool_decide (Message.id m = mid)) (messages d).

(** [user.messages]: the rows of the messages table owned by the user. *)
Definition messages_of (d : Database) (uid : nat) : list Message.t :=
  filter (λ m, Message.user_id m = uid) (messages d).

(** [user.following]: the ids of the users this one follows, one per
    association row. *)
Definition following (d : Database) (uid : nat) : list nat :=
  Follow.followed_id <$> filter (λ f, Follow.follower_id f = uid) (follows d).

(** [user.liked_messages]: the ids of the messages this user likes. *)
Definition liked_messages (d : Database) (uid : nat) : list nat :=
  Like.message_id <$> filter (λ l, Like.user_id l = uid) (likes d).

(** [l.remove(x)] of a Python list: drops the first occurrence, [None]
    when there is none (Python raises ValueError). *)
Fixpoint list_remove `{EqDecision A} (x : A) (l : list A) : option (list A) :=
  match l with
  | [] => None
  | y :: l' => if decide (y = x) then Some l' else (y ::.) <$> list_remove x l'
  end.

(** Modelled from the spec: the data model of [models.py] gives users a
    unique username and a unique email.  A row passes when its username
    and its email each occur once in the table. *)
Definition unique_row (d : Database) (u : User.t) : bool :=
  bool_decide (length (filter (λ v, User.username v = User.username u) (users d)) ≤ 1)
  && bool_decide (length (filter (λ v, User.email v = User.email u) (users d)) ≤ 1).

(** Flushing writes the pending user rows; the database answers a
    violated constraint with [IntegrityError]. *)
Definition flush_ok (d : Database) (pending : list nat) : bool :=
  forallb (λ u, negb (bool_decide (User.id u ∈ pending)) || unique_row d u) (users d).

Definition flush : M unit := λ c,
  if flush_ok (orm c) (pending c)
  then (set_pending [] c, Return ())
  else (c, Raise IntegrityError).

(** [db.session.commit()]. *)
Definition db_session_commit : M unit :=
  flush;; modify (λ c, set_store (orm c) c).

(** [User.query.get(id)] and [Message.query.get(id)]. *)
Definition User_query_get (uid : nat) : M (option User.t) :=
  gets (λ c, find_user (orm c) uid).

Definition User_query_get_or_404 (uid : nat) : M User.t :=
  o ← User_query_get uid;
  match o with Some u => ret u | None => raise NotFound end.

Definition Message_query_get_or_404 (mid : nat) : M Message.t :=
  o ← gets (λ c, find_message (orm c) mid);
  match o with Some m => ret m | None => raise NotFound end.

(** *** Row operations *)

(** Writing an attribute of a user object replaces the row with its id. *)
Definition db_update_user (u : User.t) (d : Database) : Database :=
  with_users ((λ v, if decide (User.id v = User.id u) then u else v) <$> users d) d.

(** Modelled from the spec: deleting a message removes its row; the
    likes that point to it go with it. *)
Definition db_delete_message (m : Message.t) (d : Database) : Database :=
  with_likes (filter (λ l, Like.message_id l ≠ Message.id m) (likes d))
    (with_messages (filter (λ x, Message.id x ≠ Message.id m) (messages d)) d).

(** Modelled from the spec: deleting a user removes its row; the
    association rows that point to the user go with it.  The messages of
    the user are left to the handler, which deletes them itself before
    it deletes the row: a cascade of the data model would find none of
    them left ([cascade_finds_nothing]). *)
Definition db_delete_user (u : User.t) (d : Database) : Database :=
  let uid := User.id u in
  mkDatabase
    (filter (λ v, User.id v ≠ uid) (users d))
    (messages d)
    (filter (λ f, Follow.follower_id f ≠ uid ∧ Follow.followed_id f ≠ uid) (follows d))
    (filter (λ l, Like.user_id l ≠ uid) (likes d))
    (user_seq d) (message_seq d).

(** Modelled from the spec: the data model cascades the deletion of a
    user to the messages the user owns, and to the likes of them. *)
Definition db_delete_user_cascade (u : User.t) (d : Database) : Database :=
  let uid := User.id u in
  let gone := Message.id <$> messages_of d uid in
  mkDatabase
    (filter (λ v, User.id v ≠ uid) (users d))
    (filter (λ x, Message.user_id x ≠ uid) (messages d))
    (filter (λ f, Follow.follower_id f ≠ uid ∧ Follow.followed_id f ≠ uid) (follows d))
    (filter (λ l, Like.user_id l ≠ uid ∧ Like.message_id l ∉ gone) (likes d))
    (user_seq d) (message_seq d).

(** A new row takes the next id of its sequence. *)
Definition db_add_user (u : User.t) (d : Database) : Database :=
  mkDatabase (users d ++ [u]) (messages d) (follows d) (likes d)
             (S (user_seq d)) (message_seq d).

Definition db_add_message (m : Message.t) (d : Database) : Database :=
  mkDatabase (users d) (messages d ++ [m]) (follows d) (likes d)
             (user_seq d) (S (message_seq d)).

Definition db_add_follow (f : Follow.t) (d : Database) : Database :=
  with_follows (follows d ++ [f]) d.

Definition db_add_like (l : Like.t) (d : Database) : Database :=
  with_likes (likes d ++ [l]) d.

(** *** The session *)

Definition orm_update (u : User.t) : M unit :=
  modify (λ c, set_pending (User.id u :: pending c)
                 (set_orm (db_update_user u (orm c)) c)).

Definition db_session_delete_message (m : Message.t) : M unit :=
  modify (λ c, set_orm (db_delete_message m (orm c)) c).

Definition db_session_delete_user (u : User.t) : M unit :=
  modify (λ c, set_orm (db_delete_user u (orm c)) c).

(** [user.following.append(other)] and [user.following.remove(other)].
    The append is that of a user who is not yet in the list: it writes an
    association row. *)
Definition following_append (u other : User.t) : M unit :=
  modify (λ c, set_orm (db_add_follow (Follow.mk (User.id u) (User.id other)) (orm c)) c).

Definition following_remove (u other : User.t) : M unit := λ c,
  match list_remove (Follow.mk (User.id u) (User.id other)) (follows (orm c)) with
  | Some fs => (set_orm (with_follows fs (orm c)) c, Return ())
  | None => (c, Raise ValueError)
  end.

(** [user.liked_messages.append(m)] and [user.liked_messages.remove(m)].
    The append is that of a message that is not yet in the list. *)
Definition liked_messages_append (u : User.t) (m : Message.t) : M unit :=
  modify (λ c, set_orm (db_add_like (Like.mk (User.id u) (Message.id m)) (orm c)) c).

Definition liked_messages_remove (u : User.t) (m : Message.t) : M unit := λ c,
  match list_remove (Like.mk (User.id u) (Message.id m)) (likes (orm c)) with
  | Some ls => (set_orm (with_likes ls (orm c)) c, Return ())
  | None => (c, Raise ValueError)
  end.

(** [user.messages.append(Message(text=text))]: the timestamp defaults to
    the time of creation. *)
Definition messages_append (u : User.t) (text : string) (now : nat) : M unit :=
  modify (λ c,
    set_orm (db_add_message (Message.mk (message_seq (orm c)) text now (User.id u))
                            (orm c)) c).

Section Models.
Context `{Models}.

(** Modelled from the spec: [User.signup] of [models.py] hashes the
    password and adds the new user to the session; the row is written
    by the next flush. *)
Definition new_user (d : Database) (username password email image_url : string) : User.t :=
  User.mk (user_seq d) username email (generate_password_hash password)
          "" image_url DEFAULT_HEADER_IMAGE_URL.

Definition User_signup (username password email image_url : string) : M User.t := λ c,
  let u := new_user (orm c) username password email image_url in
  (set_pending (User.id u :: pending c) (set_orm (db_add_user u (orm c)) c), Return u).

(** Modelled from the spec: [User.authenticate] of [models.py] looks the
    user up by username and verifies the hash; it answers the user, or
    nothing.  The query flushes the session first. *)
Definition authenticate (d : Database) (username password : string) : option User.t :=
  match List.find (λ u, bool_decide (User.username u = username)) (users d) with
  | Some u => if check_password_hash (User.password u) password then Some u else None
  | None => None
  end.

Definition User_authenticate (username password : string) : M (option User.t) :=
  flush;; gets (λ c, authenticate (orm c) username password).
End Models.

(** ** Forms *)

(** [request.form[key]]: a missing key is a bad request. *)
Definition form_getitem (request : Request) (key : string) : M string :=
  match form request !! key with
  | Some v => ret v
  | None => raise (BadRequestKeyError key)
  end.

(** [form.<field>.data] of a submitted form, for a field that was sent; a
    field that was not sent is read as empty. *)
Definition data (request : Request) (field : string) : string :=
  default "" (form request !! field).

(** Python's [x or y] on strings. *)
Definition or_else (x y : string) : string :=
  if decide (x = "") then y else x.

(** Modelled from the spec: every form validates a token tied to the
    session.  The token of the request is the form field [csrf_token]; it
    is valid when the session holds a token and the two agree. *)
Definition token_valid (secret : option string) (request : Request) : bool :=
  match form request !! "csrf_token", secret with
  | Some t, Some s => bool_decide (t = s)
  | _, _ => false
  end.

Definition validate_csrf (request : Request) : M bool :=
  gets (λ c, token_valid (c_csrf_secret c) request).

(** [form.validate_on_submit()]: the request is a submission, its token is
    valid and its fields pass the validators of the form. *)
Definition validate_on_submit
    (fields : gmap string string → bool) (request : Request) : M bool :=
  if decide (method request = POST)
  then ok ← validate_csrf request; ret (ok && fields (form request))
  else ret false.

(** ** Before-request functions *)

Definition CURR_USER_KEY : string := "curr_user".

(** Flask's [g]: the user attached to the request, if any.  The other
    attribute, [g.csrf_form], is a [CSRFForm] and holds no state. *)
Record G := mkG { user : option User.t }.

Definition add_user_to_g : M G :=
  s ← gets c_session;
  match s !! CURR_USER_KEY with
  | Some uid => u ← User_query_get uid; ret (mkG u)
  | None => ret (mkG None)
  end.

(** ** User signup/login/logout *)

Definition do_login (user : User.t) : M unit :=
  modify (λ c, set_session (<[CURR_USER_KEY := User.id user]> (c_session c)) c).

Definition do_logout : M unit :=
  modify (λ c,
    if decide (is_Some (c_session c !! CURR_USER_KEY))
    then set_session (delete CURR_USER_KEY (c_session c)) c
    else c).

Definition unauthorized_redirect : M Response :=
  flash "Access unauthorized." "danger";; ret (Redirect "/").

(** ** The query of the home feed *)

(** [Message.timestamp.desc()]: the newer message comes first. *)
Definition newer_first : relation Message.t :=
  λ m1 m2, Message.timestamp m2 ≤ Message.timestamp m1.

Global Instance newer_first_dec m1 m2 : Decision (newer_first m1 m2).
Proof. unfold newer_first. apply _. Defined.

Global Instance newer_first_trans : Transitive newer_first.
Proof. unfold newer_first. intros x y z. lia. Qed.

Global Instance newer_first_total : Total newer_first.
Proof. unfold newer_first. intros x y. lia. Qed.

(** [Message.query.filter(Message.user_id.in_(valid_ids))
      .order_by(Message.timestamp.desc()).limit(100).all()].
    The order of rows with equal timestamps is left open by the database;
    here the sort is a merge sort. *)
Definition feed (d : Database) (valid_ids : list nat) : list Message.t :=
  take 100 (merge_sort newer_first
              (filter (λ m, Message.user_id m ∈ valid_ids) (messages d))).

Section Handlers.
Context `{Models} `{Forms}.

Definition signup (g : G) (request : Request) : M Response :=
  do_logout;;
  let form := VForm "UserAddForm" in
  valid ← validate_on_submit UserAddForm request;
  if valid then
    r ← try_except
          (user ← User_signup (data request "username")
                              (data request "password")
                              (data request "email")
                              (or_else (data request "image_url") DEFAULT_IMAGE_URL);
           db_session_commit;;
           ret (inl user))
          IntegrityError
          (flash "Username already taken" "danger";;
           ret (inr (RenderTemplate "users/signup.html" [("form", form)])));
    match r with
    | inr response => ret response
    | inl user => do_login user;; ret (Redirect "/")
    end
  else ret (RenderTemplate "users/signup.html" [("form", form)]).

Definition login (g : G) (request : Request) : M Response :=
  let form := VForm "LoginForm" in
  valid ← validate_on_submit LoginForm request;
  if valid then
    user ← User_authenticate (data request "username") (data request "password");
    match user with
    | Some user =>
        do_login user;;
        flash ("Hello, " +:+ User.username user +:+ "!") "success";;
        ret (Redirect "/")
    | None =>
        flash "Invalid credentials." "danger";;
        ret (RenderTemplate "users/login.html" [("form", form)])
    end
  else ret (RenderTemplate "users/login.html" [("form", form)]).

Definition logout (g : G) (request : Request) : M Response :=
  valid ← validate_on_submit CSRFForm request;
  (if valid then do_logout;; flash "Successfully logged out." "message"
   else raise Unauthorized);;
  ret (Redirect "/").

(** ** General user routes *)

Definition start_following (follow_id : nat) (g : G) (request : Request) : M Response :=
  match user g with
  | None => unauthorized_redirect
  | Some g_user =>
      valid ← validate_on_submit CSRFForm request;
      if valid then
        followed_user ← User_query_get_or_404 follow_id;
        following_append g_user followed_user;;
        db_session_commit;;
        ret (Redirect ("/users/" +:+ pretty (User.id g_user) +:+ "/following"))
      else ret (ReturnedException Unauthorized)
  end.

Definition stop_following (follow_id : nat) (g : G) (request : Request) : M Response :=
  followed_user ← User_query_get_or_404 follow_id;
  match user g with
  | None => unauthorized_redirect
  | Some g_user =>
      fl ← gets (λ c, following (orm c) (User.id g_user));
      if decide (User.id followed_user ∉ fl) then unauthorized_redirect
      else
        valid ← validate_on_submit CSRFForm request;
        if valid then
          following_remove g_user followed_user;;
          db_session_commit;;
          ret (Redirect ("/users/" +:+ pretty (User.id g_user) +:+ "/following"))
        else ret (ReturnedException Unauthorized)
  end.

Definition handle_user_profile_edit (g : G) (request : Request) : M Response :=
  match user g with
  | None => unauthorized_redirect
  | Some user =>
      let form := VForm "UserProfileEditForm" in
      valid ← validate_on_submit UserProfileEditForm request;
      r ← (if valid then
             let user := User.set_username (data request "username") user in
             orm_update user;;
             auth ← User_authenticate (User.username user) (data request "password");
             match auth with
             | Some _ =>
                 let user := User.set_email (data request "email") user in
                 orm_update user;;
                 let user := User.set_bio (data request "bio") user in
                 orm_update user;;
                 let user := User.set_image_url
                               (or_else (data request "image_url") DEFAULT_IMAGE_URL) user in
                 orm_update user;;
                 let user := User.set_header_image_url
                               (or_else (data request "header_image_url")
                                        DEFAULT_HEADER_IMAGE_URL) user in
                 orm_update user;;
                 db_session_commit;;
                 ret (inl (Redirect ("/users/" +:+ pretty (User.id user))))
             | None => ret (inr user)
             end
           else ret (inr user));
      match r with
      | inl response => ret response
      | inr user =>
          flash "Invalid password" "message";;
          ret (RenderTemplate "users/edit.html" [("user", VUser user); ("form", form)])
      end
  end.

Definition delete_user (g : G) (request : Request) : M Response :=
  match user g with
  | None => unauthorized_redirect
  | Some g_user =>
      valid ← validate_on_submit CSRFForm request;
      (if valid then
         do_logout;;
         ms ← gets (λ c, messages_of (orm c) (User.id g_user));
         for_each ms (λ message, db_session_delete_message message);;
         db_session_delete_user g_user;;
         db_session_commit;;
         flash "We'll miss you!" "message"
       else raise Unauthorized);;
      ret (Redirect "/signup")
  end.

(** ** Messages routes *)

Definition add_message (g : G) (request : Request) : M Response :=
  match user g with
  | None => unauthorized_redirect
  | Some g_user =>
      let form := VForm "MessageForm" in
      valid ← validate_on_submit MessageForm request;
      if valid then
        messages_append g_user (data request "text") (now request);;
        db_session_commit;;
        ret (Redirect ("/users/" +:+ pretty (User.id g_user)))
      else ret (RenderTemplate "messages/create.html" [("form", form)])
  end.

Definition delete_message (message_id : nat) (g : G) (request : Request) : M Response :=
  match user g with
  | None => unauthorized_redirect
  | Some g_user =>
      msg ← Message_query_get_or_404 message_id;
      db_session_delete_message msg;;
      db_session_commit;;
      ret (Redirect ("/users/" +:+ pretty (User.id g_user)))
  end.

(** ** Likes *)

Definition like (message_id : nat) (g : G) (request : Request) : M Response :=
  came_from ← form_getitem request "came-from";
  match user g with
  | None => unauthorized_redirect
  | Some g_user =>
      valid ← validate_on_submit CSRFForm request;
      if valid then
        message ← Message_query_get_or_404 message_id;
        if decide (Message.user_id message ≠ User.id g_user) then
          liked_messages_append g_user message;;
          db_session_commit;;
          ret (Redirect came_from)
        else
          flash "High-fiving yourself is not a good look." "message";;
          ret (Redirect came_from)
      else ret (ReturnedException Unauthorized)
  end.

Definition remove_like (message_id : nat) (g : G) (request : Request) : M Response :=
  came_from ← form_getitem request "came-from";
  match user g with
  | None => unauthorized_redirect
  | Some g_user =>
      valid ← validate_on_submit CSRFForm request;
      if valid then
        message ← Message_query_get_or_404 message_id;
        liked_messages_remove g_user message;;
        db_session_commit;;
        ret (Redirect came_from)
      else ret (ReturnedException Unauthorized)
  end.

(** ** Homepage *)

Definition homepage (g : G) (request : Request) : M Response :=
  match user g with
  | Some g_user =>
      fl ← gets (λ c, following (orm c) (User.id g_user));
      let valid_ids := fl ++ [User.id g_user] in
      messages ← gets (λ c, feed (orm c) valid_ids);
      ret (RenderTemplate "home.html"
              [("messages", VMessages messages); ("form", VForm "CSRFForm")])
  | None => ret (RenderTemplate "home-anon.html" [])
  end.
End Handlers.

(** ** The application: routes, and one request from start to end *)

Inductive Route :=
| route_signup
| route_login
| route_logout
| route_start_following (follow_id : nat)
| route_stop_following (follow_id : nat)
| route_profile
| route_delete_user
| route_add_message
| route_delete_message (message_id : nat)
| route_like (message_id : nat)
| route_remove_like (message_id : nat)
| route_homepage.

(** The methods of the route decorators. *)
Definition methods (r : Route) : list Method :=
  match r with
  | route_signup | route_login | route_profile | route_add_message => [GET; POST]
  | route_homepage => [GET]
  | _ => [POST]
  end.

Section App.
Context `{Models} `{Forms}.

Definition view (r : Route) : G → Request → M Response :=
  match r with
  | route_signup => signup
  | route_login => login
  | route_logout => logout
  | route_start_following follow_id => start_following follow_id
  | route_stop_following follow_id => stop_following follow_id
  | route_profile => handle_user_profile_edit
  | route_delete_user => delete_user
  | route_add_message => add_message
  | route_delete_message message_id => delete_message message_id
  | route_like message_id => like message_id
  | route_remove_like message_id => remove_like message_id
  | route_homepage => homepage
  end.

(** The handler on the context of a request: the before-request
    functions, then the view, unless the route refuses the method. *)
Definition handle (r : Route) (request : Request) : M Response :=
  g ← add_user_to_g;
  if decide (method request ∈ methods r) then view r g request
  else raise MethodNotAllowed.

(** One request: a fresh unit of work on the committed database, the
    handler, and the end of the request. *)
Definition app (r : Route) (w : World) (request : Request) : World * Result Response :=
  let '(c, result) := handle r request (enter w) in (leave c, result).
End App.

(** ** Notions used by the properties *)

(** The user the before-request function attaches to the request. *)
Definition current_user (w : World) : option User.t :=
  match session w !! CURR_USER_KEY with
  | Some uid => find_user (db w) uid
  | None => None
  end.

(** A user is logged in when the session names a stored user. *)
Definition logged_in (w : World) (u : User.t) : Prop :=
  current_user w = Some u.

(** The world after one more flashed message. *)
Definition flashed (category message : string) (w : World) : World :=
  mkWorld (db w) (session w) (csrf_secret w) (flashes w ++ [(category, message)]).

(** The world after the current-user key has left the session. *)
Definition logged_out (w : World) : World :=
  mkWorld (db w) (delete CURR_USER_KEY (session w)) (csrf_secret w) (flashes w).

(** The uniqueness constraints of the users table. *)
Definition unique_users (d : Database) : Prop :=
  NoDup (User.username <$> users d) ∧ NoDup (User.email <$> users d).

Section SubmittedUser.
Context `{Models}.

(** The user a signup form asks for. *)
Definition submitted_user (d : Database) (request : Request) : User.t :=
  new_user d (data request "username") (data request "password")
           (data request "email")
           (or_else (data request "image_url") DEFAULT_IMAGE_URL).
End SubmittedUser.

(** A submission of a form: a POST whose token is valid and whose fields
    pass the validators of the form. *)
Definition valid_submission
    (fields : gmap string string → bool) (w : World) (request : Request) : Prop :=
  method request = POST
  ∧ token_valid (csrf_secret w) request = true
  ∧ fields (form request) = true.

Definition usernames (d : Database) : list string := User.username <$> users d.
Definition emails (d : Database) : list string := User.email <$> users d.

(** The world after a user has been stored and logged in. *)
Definition signed_up (u : User.t) (w : World) : World :=
  mkWorld (db_add_user u (db w)) (<[CURR_USER_KEY := User.id u]> (session w))
          (csrf_secret w) (flashes w).

(** The user object of the profile form once the submitted username has
    been written to it. *)
Definition renamed (request : Request) (u : User.t) : User.t :=
  User.set_username (data request "username") u.

(** The routes whose handler validates a form, and with it the token,
    before it writes: all the writing routes but the deletion of a
    message. *)
Definition validates_token (r : Route) : bool :=
  match r with
  | route_logout | route_start_following _ | route_stop_following _
  | route_profile | route_delete_user | route_add_message
  | route_like _ | route_remove_like _ => true
  | _ => false
  end.

Definition unauthorized_response : Result Response :=
  Return (ReturnedException Unauthorized).

(** The user rows of the unit of work that no flush has yet to write. *)
Definition clean_users (c : Ctx) : list User.t :=
  filter (λ u, User.id u ∉ pending c) (users (orm c)).

(** The committed table satisfies the constraints, and so do the rows of
    the unit of work that are not pending. *)
Definition consistent (c : Ctx) : Prop :=
  unique_users (store c)
  ∧ NoDup (User.username <$> clean_users c)
  ∧ NoDup (User.email <$> clean_users c).

(** A computation keeps the context consistent, whatever it returns. *)
Definition preserves {A} (m : M A) : Prop :=
  ∀ c, consistent c → consistent (m c).1.

(** The messages the home feed draws from: the user's own and those of
    the users the user follows. *)
Definition feed_source (d : Database) (uid : nat) : list Message.t :=
  filter (λ m, Message.user_id m = uid ∨ Message.user_id m ∈ following d uid)
         (messages d).

(** ** Fixtures

    The users and the message of the test suite ([test_user_model.py],
    [test_message_model.py]), with stand-ins for what [models.py] and
    [forms.py] provide: the hash of a password is the password behind a
    tag, and a form passes when its required fields are there. *)

#[local] Instance test_models : Models := {|
  DEFAULT_IMAGE_URL := "/static/images/default-pic.png";
  DEFAULT_HEADER_IMAGE_URL := "/static/images/warbler-hero.jpg";
  generate_password_hash := λ p, "$2b$12$" +:+ p;
  check_password_hash := λ h p, bool_decide (h = "$2b$12$" +:+ p)
|}.

#[local] Instance test_forms : Forms := {|
  UserAddForm := λ f,
    bool_decide (data (mkRequest POST f 0) "username" ≠ ""
                 ∧ data (mkRequest POST f 0) "email" ≠ ""
                 ∧ 6 ≤ String.length (data (mkRequest POST f 0) "password"));
  LoginForm := λ f, bool_decide (is_Some (f !! "username") ∧ is_Some (f !! "password"));
  MessageForm := λ f, bool_decide (data (mkRequest POST f 0) "text" ≠ "");
  UserProfileEditForm := λ f, bool_decide (data (mkRequest POST f 0) "username" ≠ "")
|}.

Definition u1 : User.t :=
  User.mk 1 "u1" "u1@email.com" "$2b$12$password" ""
          "/static/images/default-pic.png" "/static/images/warbler-hero.jpg".

Definition u2 : User.t :=
  User.mk 2 "u2" "u2@email.com" "$2b$12$password" ""
          "/static/images/default-pic.png" "/static/images/warbler-hero.jpg".

Definition m1 : Message.t := Message.mk 1 "test message" 10 1.

Definition m2 : Message.t := Message.mk 2 "test message 2" 20 2.

Definition empty_database : Database := mkDatabase [] [] [] [] 1 1.

Definition test_database : Database := mkDatabase [u1; u2] [m1] [] [] 3 2.

(** [u1] follows [u2], and both have written. *)
Definition feed_database : Database :=
  mkDatabase [u1; u2] [m1; m2] [Follow.mk 1 2] [] 3 3.

(** A world over a database, with a CSRF token in the session. *)
Definition anonymous (d : Database) : World := mkWorld d ∅ (Some "token") [].

Definition world_of (d : Database) (u : User.t) : World :=
  mkWorld d {[ CURR_USER_KEY := User.id u ]} (Some "token") [].

Definition get : Request := mkRequest GET ∅ 30.

(** A POST with these form fields. *)
Definition post (fields : list (string * string)) : Request :=
  mkRequest POST (list_to_map fields) 30.

(** ** Tactics *)

(** Unfolding of the monad, to be followed by [simpl]. *)
Ltac unfold_monad :=
  unfold validate_on_submit, validate_csrf, form_getitem, flash, do_login,
    do_logout, db_session_commit, flush, User_query_get_or_404, User_query_get,
    Message_query_get_or_404, orm_update, db_session_delete_message,
    db_session_delete_user, following_append, following_remove,
    liked_messages_append, liked_messages_remove, messages_append,
    unauthorized_redirect, try_except, bind, ret, raise, gets, modify;
  unfold set_orm, set_store, set_pending, set_session, set_flashes.

(** Evaluation of the monad and of the fields of the context, and of
    nothing else: the branches a handler does not take stay as they are. *)
Ltac run :=
  cbv beta iota zeta delta
    [validate_on_submit validate_csrf form_getitem flash do_login
     db_session_commit flush User_query_get_or_404 User_query_get
     Message_query_get_or_404 orm_update unauthorized_redirect
     bind ret raise gets modify
     set_orm set_store set_pending set_session set_flashes
     store orm pending c_session c_csrf_secret c_flashes enter user
     andb].

(** The route takes the method, which hypothesis [H] fixes. *)
Ltac allowed H := rewrite H; repeat constructor.

(** One step of a handler that has validated its form: the method is
    POST and the token is what [Htok] says. *)
Ltac validated Htok :=
  rewrite decide_True by done; run; rewrite Htok; run.

(** * Properties *)

(** ** Lookups *)

Lemma find_user_id d uid u : find_user d uid = Some u → User.id u = uid.
Proof.
  unfold find_user. intros Hf. apply find_some in Hf as [_ Hb].
  by apply bool_decide_eq_true in Hb.
Qed.

Lemma find_message_id d mid m : find_message d mid = Some m → Message.id m = mid.
Proof.
  unfold find_message. intros Hf. apply find_some in Hf as [_ Hb].
  by apply bool_decide_eq_true in Hb.
Qed.

Lemma find_none_filter {A} (f : A → bool) (P : A → Prop) `{∀ x, Decision (P x)} l :
  (∀ x, P x → f x = false) → List.find f (filter P l) = None.
Proof.
  intros Hf. induction l as [|x l IH]; [done|].
  rewrite filter_cons. case_decide; [|done]. simpl. by rewrite Hf.
Qed.

Lemma find_user_updated d uid u u' :
  find_user d uid = Some u →
  User.id u' = uid →
  find_user (db_update_user u' d) uid = Some u'.
Proof.
  unfold find_user, db_update_user; simpl. intros Hf Hid.
  induction (users d) as [|v vs IH]; [done|]. simpl in *.
  destruct (decide (User.id v = uid)) as [Hv|Hv].
  - rewrite decide_True by congruence. by rewrite bool_decide_eq_true_2.
  - rewrite decide_False by congruence.
    rewrite bool_decide_eq_false_2 in * by done. by apply IH.
Qed.

Lemma find_user_deleted u d : find_user (db_delete_user u d) (User.id u) = None.
Proof.
  unfold find_user, db_delete_user; simpl.
  apply find_none_filter. intros x Hx. by apply bool_decide_eq_false_2.
Qed.

Lemma find_message_deleted m d :
  find_message (db_delete_message m d) (Message.id m) = None.
Proof.
  unfold find_message, db_delete_message; simpl.
  apply find_none_filter. intros x Hx. by apply bool_decide_eq_false_2.
Qed.

Lemma filter_all {A} (P : A → Prop) `{∀ x, Decision (P x)} (l : list A) :
  (∀ x, x ∈ l → P x) → filter P l = l.
Proof.
  induction l as [|x l IH]; intros Hl; [done|].
  rewrite filter_cons_True by (apply Hl; left).
  rewrite IH; [done|]. intros y Hy. apply Hl. by right.
Qed.

(** What the loop over the messages of a user leaves of the messages
    table. *)
Lemma messages_after_loop ms d :
  messages (fold_left (λ d m, db_delete_message m d) ms d)
  = filter (λ x, Message.id x ∉ Message.id <$> ms) (messages d).
Proof.
  revert d. induction ms as [|m ms IH]; intros d; simpl.
  - symmetry. apply filter_all. intros x _. apply not_elem_of_nil.
  - rewrite IH. simpl. rewrite list_filter_filter.
    apply list_filter_iff. intros x. rewrite not_elem_of_cons. tauto.
Qed.

Lemma messages_of_deleted d uid :
  messages_of (fold_left (λ d m, db_delete_message m d) (messages_of d uid) d) uid = [].
Proof.
  unfold messages_of at 1. rewrite messages_after_loop.
  apply elem_of_nil_inv. intros x [Hx [Hid Hin]%list_elem_of_filter]%list_elem_of_filter.
  apply Hid. apply list_elem_of_fmap_2. by apply list_elem_of_filter.
Qed.

Lemma list_remove_None `{EqDecision A} (x : A) l : x ∉ l → list_remove x l = None.
Proof.
  induction l as [|y l IH]; [done|]. intros Hx. simpl.
  rewrite decide_False by (intros ->; apply Hx; left).
  rewrite IH; [done|]. intros Hin. apply Hx. by right.
Qed.

Lemma logged_in_id w u : logged_in w u → session w !! CURR_USER_KEY = Some (User.id u).
Proof.
  unfold logged_in, current_user. destruct (session w !! CURR_USER_KEY) as [uid|]; [|done].
  intros Hf. by rewrite (find_user_id _ _ _ Hf).
Qed.

Lemma logged_in_find w u : logged_in w u → find_user (db w) (User.id u) = Some u.
Proof.
  intros Hu. pose proof (logged_in_id _ _ Hu) as Hs.
  unfold logged_in, current_user in Hu. by rewrite Hs in Hu.
Qed.

(** ** The uniqueness constraints at a flush *)

Lemma count_unique {A B} `{EqDecision B} (f : A → B) (l : list A) (x : B) :
  NoDup (f <$> l) → length (filter (λ v, f v = x) l) ≤ 1.
Proof.
  induction l as [|a l IH]; simpl; [lia|].
  rewrite NoDup_cons. intros [Ha Hl]. rewrite filter_cons.
  case_decide as Hx; [|by apply IH]. simpl.
  assert (filter (λ v, f v = x) l = []) as ->; [|simpl; lia].
  apply elem_of_nil_inv. intros v [Hv Hin]%list_elem_of_filter.
  apply Ha. rewrite Hx, <- Hv. by apply list_elem_of_fmap_2.
Qed.

Lemma count_fresh {A B} `{EqDecision B} (f : A → B) (l : list A) (x : B) :
  x ∉ f <$> l → filter (λ v, f v = x) l = [].
Proof.
  intros Hx. apply elem_of_nil_inv. intros v [Hv Hin]%list_elem_of_filter.
  apply Hx. rewrite <- Hv. by apply list_elem_of_fmap_2.
Qed.

Lemma count_taken {A B} `{EqDecision B} (f : A → B) (l : list A) (x : B) :
  x ∈ f <$> l → 1 ≤ length (filter (λ v, f v = x) l).
Proof.
  intros (v & Hv & Hin)%list_elem_of_fmap.
  assert (v ∈ filter (λ v, f v = x) l) as Hf by (by apply list_elem_of_filter).
  destruct (filter _ l); [by apply elem_of_nil in Hf|simpl; lia].
Qed.

(** A flush that writes no user row cannot fail. *)
Lemma flush_ok_nil d : flush_ok d [] = true.
Proof.
  unfold flush_ok. apply forallb_forall. intros u _.
  rewrite bool_decide_eq_false_2; [done|]. apply not_elem_of_nil.
Qed.

(** A new row with an unused username and an unused email passes. *)
Lemma flush_ok_fresh d u :
  unique_users d →
  User.username u ∉ usernames d →
  User.email u ∉ emails d →
  flush_ok (db_add_user u d) [User.id u] = true.
Proof.
  intros [Hnames Hmails] Hname Hmail.
  unfold flush_ok. apply forallb_forall. intros v Hv.
  apply orb_true_iff. right. unfold unique_row. simpl.
  rewrite !filter_app, !length_app.
  apply list_elem_of_In, elem_of_app in Hv as [Hv|Hv%list_elem_of_singleton].
  - rewrite !(filter_cons_False _ u), !filter_nil; simpl.
    + pose proof (count_unique User.username (users d) (User.username v) Hnames).
      pose proof (count_unique User.email (users d) (User.email v) Hmails).
      apply andb_true_iff; split; apply bool_decide_eq_true; lia.
    + intros Heq. apply Hmail. rewrite Heq. by apply list_elem_of_fmap_2.
    + intros Heq. apply Hname. rewrite Heq. by apply list_elem_of_fmap_2.
  - subst v. rewrite (count_fresh User.username), (count_fresh User.email) by done.
    by rewrite !filter_cons_True by done.
Qed.

(** A new row whose username is in use does not. *)
Lemma flush_ok_taken d u :
  User.username u ∈ usernames d →
  flush_ok (db_add_user u d) [User.id u] = false.
Proof.
  intros Hname. apply not_true_is_false. unfold flush_ok. rewrite forallb_forall.
  intros Hall. specialize (Hall u).
  rewrite bool_decide_eq_true_2 in Hall by (by apply list_elem_of_singleton).
  simpl in Hall.
  assert (unique_row (db_add_user u d) u = false) as Hrow.
  { unfold unique_row. simpl. rewrite filter_app, length_app.
    rewrite (filter_cons_True _ u) by done. simpl.
    pose proof (count_taken User.username (users d) (User.username u) Hname).
    by rewrite bool_decide_eq_false_2 by lia. }
  rewrite Hrow in Hall. discriminate Hall.
  simpl. apply in_or_app. right. by left.
Qed.

Lemma unique_users_add d u :
  unique_users d →
  User.username u ∉ usernames d →
  User.email u ∉ emails d →
  unique_users (db_add_user u d).
Proof.
  intros [Hnames Hmails] Hname Hmail. unfold unique_users; simpl.
  rewrite !fmap_app; simpl. split; apply NoDup_app; (split; [done|]);
    (split; [|apply NoDup_singleton]); intros x Hx ->%list_elem_of_singleton; done.
Qed.

Lemma usernames_add u d : usernames (db_add_user u d) = usernames d ++ [User.username u].
Proof. unfold usernames; simpl. by rewrite fmap_app. Qed.

Lemma emails_add u d : emails (db_add_user u d) = emails d ++ [User.email u].
Proof. unfold emails; simpl. by rewrite fmap_app. Qed.

(** ** Running a request *)

Lemma leave_enter w : leave (enter w) = w.
Proof. by destruct w. Qed.

Section Running.
Context `{Models} `{Forms}.

Lemma add_user_to_g_enter w :
  add_user_to_g (enter w) = (enter w, Return (mkG (current_user w))).
Proof.
  unfold add_user_to_g, current_user, bind, gets, User_query_get, ret; simpl.
  by destruct (session w !! CURR_USER_KEY).
Qed.

(** A request whose method the route takes runs the view on a fresh unit
    of work. *)
Lemma app_allowed r w request :
  method request ∈ methods r →
  app r w request =
    (leave (view r (mkG (current_user w)) request (enter w)).1,
     (view r (mkG (current_user w)) request (enter w)).2).
Proof.
  intros Hm. unfold app, handle, bind. rewrite add_user_to_g_enter.
  rewrite decide_True by done. by destruct (view _ _ _ _).
Qed.

(** Any other request is refused and changes nothing. *)
Lemma app_refused r w request :
  method request ∉ methods r → app r w request = (w, Raise MethodNotAllowed).
Proof.
  intros Hm. unfold app, handle, bind. rewrite add_user_to_g_enter.
  rewrite decide_False by done. unfold raise. by rewrite leave_enter.
Qed.

(** The loop [for message in g.user.messages: db.session.delete(message)]
    deletes the messages one after the other. *)
Lemma delete_loop ms c :
  for_each ms (λ message, db_session_delete_message message) c
  = (set_orm (fold_left (λ d m, db_delete_message m d) ms (orm c)) c, Return ()).
Proof.
  revert c. induction ms as [|m ms IH]; intros c.
  - by destruct c.
  - simpl. unfold bind at 1. unfold db_session_delete_message at 1, modify.
    rewrite IH. by destruct c.
Qed.
End Running.

(** ** Deleting a message *)

Section DeleteMessage.
Context `{Models} `{Forms}.

(** Claim C1, as the handler behaves.  The claim says that a logged-in
    user who does not own a message cannot delete it.  The handler
    looks the message up and deletes it without comparing its owner
    with the requester: for every logged-in user and every stored
    message owned by someone else, the request removes the message (and
    the likes of it) and redirects to the requester's page.  No token
    is asked for either. *)
Theorem delete_message_ignores_owner w u message_id m request :
  logged_in w u →
  find_message (db w) message_id = Some m →
  Message.user_id m ≠ User.id u →
  method request = POST →
  app (route_delete_message message_id) w request =
    (mkWorld (db_delete_message m (db w)) (session w) (csrf_secret w) (flashes w),
     Return (Redirect ("/users/" +:+ pretty (User.id u))))
  ∧ find_message (db_delete_message m (db w)) message_id = None.
Proof.
  intros Hu Hm _ Hpost. split.
  - rewrite app_allowed by allowed Hpost.
    unfold logged_in in Hu. rewrite Hu. simpl view.
    unfold delete_message. unfold_monad. simpl.
    rewrite Hm; simpl. by rewrite flush_ok_nil.
  - rewrite <- (find_message_id _ _ _ Hm). apply find_message_deleted.
Qed.
End DeleteMessage.

(** [u2] deletes the message of [u1], with a request that carries no
    field at all. *)
Lemma delete_message_ignores_owner_witness :
  logged_in (world_of test_database u2) u2
  ∧ Message.user_id m1 ≠ User.id u2
  ∧ app (route_delete_message 1) (world_of test_database u2) (post []) =
      (world_of (mkDatabase [u1; u2] [] [] [] 3 2) u2, Return (Redirect "/users/2"))
  ∧ find_message (mkDatabase [u1; u2] [] [] [] 3 2) 1 = None.
Proof.
  split; [reflexivity|]. split; [discriminate|].
  apply (delete_message_ignores_owner (world_of test_database u2) u2 1 m1 (post []));
    [reflexivity|reflexivity|discriminate|reflexivity].
Defined.

(** ** The token of the forms *)

Section Csrf.
Context `{Models} `{Forms}.

Lemma invalid_token_no_write r w request :
  validates_token r = true →
  method request = POST →
  token_valid (csrf_secret w) request = false →
  db (app r w request).1 = db w ∧ session (app r w request).1 = session w.
Proof.
  intros Hr Hpost Htok.
  destruct r; try discriminate Hr;
    (rewrite app_allowed by allowed Hpost);
    unfold view, logout, start_following, stop_following, handle_user_profile_edit,
      delete_user, add_message, like, remove_like;
    destruct (current_user w) as [u|]; run;
    repeat (rewrite ?decide_True by done; rewrite ?Htok; run;
            try case_match; simplify_eq);
    done.
Qed.

(** Claim C2, amended.  A POST without a valid token: on every writing
    route but the deletion of a message, neither the database nor the
    session changes.  Logout answers by raising Unauthorized.  For a
    logged-in user, delete-user raises Unauthorized; follow answers
    with an Unauthorized response, and so do stop-following when its
    target exists and is followed, and like and remove-like when the
    form has its came-from field (all of status 401); add-message and
    profile-edit present their form again (status 200), profile-edit
    with the message "Invalid password". *)
Theorem invalid_token_is_refused w request :
  method request = POST →
  token_valid (csrf_secret w) request = false →
  (∀ r, validates_token r = true →
        db (app r w request).1 = db w ∧ session (app r w request).1 = session w)
  ∧ app route_logout w request = (w, Raise Unauthorized)
  ∧ ∀ u, logged_in w u →
      app route_delete_user w request = (w, Raise Unauthorized)
      ∧ (∀ follow_id,
           app (route_start_following follow_id) w request = (w, unauthorized_response))
      ∧ (∀ follow_id,
           is_Some (find_user (db w) follow_id) →
           follow_id ∈ following (db w) (User.id u) →
           app (route_stop_following follow_id) w request = (w, unauthorized_response))
      ∧ (∀ message_id,
           is_Some (form request !! "came-from") →
           app (route_like message_id) w request = (w, unauthorized_response)
           ∧ app (route_remove_like message_id) w request = (w, unauthorized_response))
      ∧ app route_add_message w request =
          (w, Return (RenderTemplate "messages/create.html"
                        [("form", VForm "MessageForm")]))
      ∧ app route_profile w request =
          (flashed "message" "Invalid password" w,
           Return (RenderTemplate "users/edit.html"
                     [("user", VUser u); ("form", VForm "UserProfileEditForm")])).
Proof.
  intros Hpost Htok. split; [|split].
  - intros r Hr. by apply invalid_token_no_write.
  - rewrite app_allowed by allowed Hpost.
    unfold view, logout. run. validated Htok. by destruct w.
  - intros u Hu. unfold logged_in in Hu.
    split; [|split; [|split; [|split; [|split]]]].
    + rewrite app_allowed by allowed Hpost. rewrite Hu.
      unfold view, delete_user. run. validated Htok. by destruct w.
    + intros follow_id. rewrite app_allowed by allowed Hpost. rewrite Hu.
      unfold view, start_following. run. validated Htok. by destruct w.
    + intros follow_id [target Hf] Hfl.
      rewrite app_allowed by allowed Hpost. rewrite Hu.
      unfold view, stop_following. run. rewrite Hf. run.
      rewrite (find_user_id _ _ _ Hf).
      rewrite decide_False by (intros Hn; by apply Hn).
      run. validated Htok. by destruct w.
    + intros message_id [came_from Hcf]. split;
        (rewrite app_allowed by allowed Hpost); rewrite Hu;
        unfold view, like, remove_like; run; rewrite Hcf; run;
        validated Htok; by destruct w.
    + rewrite app_allowed by allowed Hpost. rewrite Hu.
      unfold view, add_message. run. validated Htok. by destruct w.
    + rewrite app_allowed by allowed Hpost. rewrite Hu.
      unfold view, handle_user_profile_edit. run. validated Htok. by destruct w.
Qed.
End Csrf.

(** Claim C2 as stated fails.  A POST without a token: the deletion of a
    message goes through and answers with a redirect; add-message and
    profile-edit answer with status 200; follow, asked by nobody logged
    in, answers with a redirect. *)
Lemma csrf_not_validated_everywhere :
  token_valid (csrf_secret (world_of test_database u1)) (post [("text", "hello")]) = false
  ∧ app (route_delete_message 1) (world_of test_database u1) (post [("text", "hello")]) =
      (world_of (mkDatabase [u1; u2] [] [] [] 3 2) u1, Return (Redirect "/users/1"))
  ∧ status (app route_add_message (world_of test_database u1) (post [("text", "hello")])).2
    = 200
  ∧ status (app route_profile (world_of test_database u1) (post [("text", "hello")])).2
    = 200
  ∧ status (app (route_start_following 2) (anonymous test_database)
                (post [("text", "hello")])).2
    = 302.
Proof. vm_compute. repeat split; reflexivity. Qed.

Lemma invalid_token_is_refused_witness :
  token_valid (csrf_secret (world_of test_database u1)) (post []) = false
  ∧ app route_logout (world_of test_database u1) (post []) =
      (world_of test_database u1, Raise Unauthorized)
  ∧ app route_delete_user (world_of test_database u1) (post []) =
      (world_of test_database u1, Raise Unauthorized)
  ∧ status (Raise Unauthorized) = 401.
Proof.
  pose proof (invalid_token_is_refused (world_of test_database u1) (post [])
                eq_refl eq_refl) as (_ & Hlogout & Hlogged).
  split; [reflexivity|]. split; [exact Hlogout|].
  split; [exact (proj1 (Hlogged u1 eq_refl))|reflexivity].
Defined.

(** ** The home feed *)

Lemma feed_source_filter d uid :
  filter (λ m, Message.user_id m ∈ following d uid ++ [uid]) (messages d)
  = feed_source d uid.
Proof.
  unfold feed_source. apply list_filter_iff. intros m.
  rewrite elem_of_app, list_elem_of_singleton. tauto.
Qed.

Lemma feed_sorted d ids : StronglySorted newer_first (feed d ids).
Proof.
  unfold feed. eapply StronglySorted_app_1_l.
  rewrite take_drop. apply (StronglySorted_merge_sort _).
Qed.

Lemma feed_length d ids :
  length (feed d ids)
  = 100 `min` length (filter (λ m, Message.user_id m ∈ ids) (messages d)).
Proof. unfold feed. by rewrite length_take, merge_sort_Permutation. Qed.

(** The feed is the newest part of what the query selects: the rest is
    no newer than anything in the feed, and there is no rest when at most
    100 messages are selected. *)
Lemma feed_newest d ids :
  let selected := filter (λ m, Message.user_id m ∈ ids) (messages d) in
  ∃ rest, feed d ids ++ rest ≡ₚ selected
          ∧ (∀ x y, x ∈ feed d ids → y ∈ rest → newer_first x y)
          ∧ (length selected ≤ 100 → rest = []).
Proof.
  intros selected. exists (drop 100 (merge_sort newer_first selected)).
  unfold feed. fold selected. split; [|split].
  - rewrite take_drop. apply merge_sort_Permutation.
  - intros x y Hx Hy. eapply StronglySorted_app_1_elem_of; [|done..].
    rewrite take_drop. apply (StronglySorted_merge_sort _).
  - intros Hlen. apply drop_ge. by rewrite merge_sort_Permutation.
Qed.

Section Homepage.
Context `{Models} `{Forms}.

(** Claim C3.  For a logged-in user the homepage renders [home.html]
    with a list [ms] of messages such that: [ms], with some [rest],
    is a rearrangement of the user's own messages and those of the
    users the user follows; nothing in [rest] is newer than anything in
    [ms], and [rest] is empty when there are at most 100 such messages;
    [ms] is ordered by timestamp, newest first; [ms] has 100 messages, or
    all of them when there are fewer, so at most 100.  For a request with
    no logged-in user the homepage renders [home-anon.html] with no
    message. *)
Theorem homepage_feed w request :
  method request = GET →
  (∀ u, logged_in w u →
     ∃ ms rest,
       app route_homepage w request =
         (w, Return (RenderTemplate "home.html"
                       [("messages", VMessages ms); ("form", VForm "CSRFForm")]))
       ∧ ms ++ rest ≡ₚ feed_source (db w) (User.id u)
       ∧ (∀ x y, x ∈ ms → y ∈ rest → Message.timestamp y ≤ Message.timestamp x)
       ∧ (length (feed_source (db w) (User.id u)) ≤ 100 → rest = [])
       ∧ StronglySorted newer_first ms
       ∧ length ms = 100 `min` length (feed_source (db w) (User.id u))
       ∧ length ms ≤ 100)
  ∧ (current_user w = None →
     app route_homepage w request = (w, Return (RenderTemplate "home-anon.html" []))).
Proof.
  intros Hget.
  assert (method request ∈ methods route_homepage) as Hm by allowed Hget.
  split.
  - intros u Hu. rewrite (app_allowed _ _ _ Hm).
    unfold logged_in in Hu. rewrite Hu. simpl view.
    unfold homepage. unfold_monad. simpl.
    destruct (feed_newest (db w) (following (db w) (User.id u) ++ [User.id u]))
      as (rest & Hperm & Hnew & Hall).
    rewrite feed_source_filter in Hperm, Hall.
    pose proof (feed_length (db w) (following (db w) (User.id u) ++ [User.id u]))
      as Hlen.
    rewrite feed_source_filter in Hlen.
    eexists _, rest. split; [by destruct w|].
    split; [done|]. split; [done|]. split; [done|].
    split; [apply feed_sorted|]. split; [done|]. rewrite Hlen. lia.
  - intros Hu. rewrite (app_allowed _ _ _ Hm). rewrite Hu. simpl.
    unfold ret. simpl. by destruct w.
Qed.
End Homepage.

(** [u1] follows [u2]: the feed of [u1] holds the messages of both, and
    nobody's feed is shown to a visitor. *)
Lemma homepage_feed_witness :
  logged_in (world_of feed_database u1) u1
  ∧ (∃ ms rest,
       app route_homepage (world_of feed_database u1) get =
         (world_of feed_database u1,
          Return (RenderTemplate "home.html"
                    [("messages", VMessages ms); ("form", VForm "CSRFForm")]))
       ∧ ms = [m2; m1]
       ∧ ms ++ rest ≡ₚ [m1; m2]
       ∧ StronglySorted newer_first ms)
  ∧ app route_homepage (anonymous feed_database) get =
      (anonymous feed_database, Return (RenderTemplate "home-anon.html" [])).
Proof.
  split; [reflexivity|]. split.
  - destruct (proj1 (homepage_feed (world_of feed_database u1) get eq_refl) u1 eq_refl)
      as (ms & rest & Hrun & Hperm & _ & _ & Hsorted & _ & _).
    exists ms, rest. split; [exact Hrun|]. split; [|split; [exact Hperm|exact Hsorted]].
    assert (app route_homepage (world_of feed_database u1) get =
              (world_of feed_database u1,
               Return (RenderTemplate "home.html"
                         [("messages", VMessages [m2; m1]); ("form", VForm "CSRFForm")])))
      as Hval by (vm_compute; reflexivity).
    rewrite Hval in Hrun. by injection Hrun as <-.
  - exact (proj2 (homepage_feed (anonymous feed_database) get eq_refl) eq_refl).
Defined.

(** ** Editing the profile *)

Section ProfileEdit.
Context `{Models} `{Forms}.

(** Claim C4, as the handler behaves.  The claim says that a password
    that does not authenticate leaves every field of the user's record,
    the username included, unchanged.  The handler writes the submitted
    username to the user object before it authenticates, and
    authenticates under that new name: when the form validates and
    authentication fails, the form is presented again with "Invalid
    password" and nothing is committed, so the stored row is as it was;
    but the user object handed to the template, and the row of the unit
    of work, carry the submitted username.  Email, bio and the two
    image fields are written only after authentication. *)
Theorem profile_edit_renames_before_authenticating w u request :
  logged_in w u →
  valid_submission UserProfileEditForm w request →
  flush_ok (db_update_user (renamed request u) (db w)) [User.id u] = true →
  authenticate (db_update_user (renamed request u) (db w))
               (data request "username") (data request "password") = None →
  app route_profile w request =
    (flashed "message" "Invalid password" w,
     Return (RenderTemplate "users/edit.html"
               [("user", VUser (renamed request u));
                ("form", VForm "UserProfileEditForm")]))
  ∧ orm (handle route_profile request (enter w)).1
    = db_update_user (renamed request u) (db w)
  ∧ find_user (db_update_user (renamed request u) (db w)) (User.id u)
    = Some (renamed request u).
Proof.
  intros Hu (Hpost & Htok & Hok) Hflush Hauth.
  pose proof (logged_in_find _ _ Hu) as Hf.
  assert (handle route_profile request (enter w) =
    (mkCtx (db w) (db_update_user (renamed request u) (db w)) []
           (session w) (csrf_secret w)
           (flashes w ++ [("message", "Invalid password")]),
     Return (RenderTemplate "users/edit.html"
               [("user", VUser (renamed request u));
                ("form", VForm "UserProfileEditForm")])))
    as Hrun.
  { unfold handle, bind at 1. rewrite add_user_to_g_enter.
    rewrite decide_True by allowed Hpost.
    unfold logged_in in Hu. rewrite Hu.
    unfold view, handle_user_profile_edit, User_authenticate. run.
    rewrite decide_True by done. run.
    rewrite Htok, Hok. run.
    fold (renamed request u).
    change (User.id (renamed request u)) with (User.id u).
    change (User.username (renamed request u)) with (data request "username").
    rewrite Hflush. run. by rewrite Hauth. }
  split; [|split].
  - unfold app. by rewrite Hrun.
  - by rewrite Hrun.
  - by apply (find_user_updated _ _ u).
Qed.
End ProfileEdit.

(** [u2] asks for the username [u3] with a wrong password. *)
Lemma profile_edit_renames_before_authenticating_witness :
  logged_in (world_of test_database u2) u2
  ∧ authenticate (db_update_user (User.set_username "u3" u2) test_database) "u3" "wrong"
    = None
  ∧ app route_profile (world_of test_database u2)
        (post [("csrf_token", "token"); ("username", "u3"); ("password", "wrong")]) =
      (flashed "message" "Invalid password" (world_of test_database u2),
       Return (RenderTemplate "users/edit.html"
                 [("user", VUser (User.set_username "u3" u2));
                  ("form", VForm "UserProfileEditForm")]))
  ∧ orm (handle route_profile
           (post [("csrf_token", "token"); ("username", "u3"); ("password", "wrong")])
           (enter (world_of test_database u2))).1
    = mkDatabase [u1; User.set_username "u3" u2] [m1] [] [] 3 2
  ∧ find_user (mkDatabase [u1; User.set_username "u3" u2] [m1] [] [] 3 2) 2
    = Some (User.set_username "u3" u2).
Proof.
  split; [reflexivity|]. split; [reflexivity|].
  apply (profile_edit_renames_before_authenticating (world_of test_database u2) u2
           (post [("csrf_token", "token"); ("username", "u3"); ("password", "wrong")]));
    [reflexivity|repeat split; reflexivity|reflexivity|reflexivity].
Defined.

(** The same request for a username that is taken: the query of the
    authentication flushes the renamed row, the database refuses it, and
    the request ends in an error instead of the form. *)
Lemma profile_edit_taken_username :
  app route_profile (world_of test_database u2)
      (post [("csrf_token", "token"); ("username", "u1"); ("password", "wrong")]) =
    (world_of test_database u2, Raise IntegrityError).
Proof. vm_compute. reflexivity. Qed.

(** ** Likes *)

Section Likes.
Context `{Models} `{Forms}.

(** Claim C5, amended.  For every logged-in user and every message the
    user owns, a like request with a valid token and a came-from field
    changes nothing but the flashed messages, to which it adds the
    warning, and redirects to where the request came from. *)
Theorem like_own_message_is_noop w u message_id m request came_from :
  logged_in w u →
  find_message (db w) message_id = Some m →
  Message.user_id m = User.id u →
  method request = POST →
  token_valid (csrf_secret w) request = true →
  form request !! "came-from" = Some came_from →
  app (route_like message_id) w request =
    (flashed "message" "High-fiving yourself is not a good look." w,
     Return (Redirect came_from)).
Proof.
  intros Hu Hm Hown Hpost Htok Hcf.
  rewrite app_allowed by allowed Hpost.
  unfold logged_in in Hu. rewrite Hu. simpl view.
  unfold like. unfold_monad. simpl.
  rewrite Hcf; simpl. rewrite Hpost; simpl. rewrite Htok; simpl.
  rewrite Hm; simpl.
  by rewrite decide_False by (intros Hne; by apply Hne).
Qed.

(** Claim C9, amended.  For every logged-in user and every stored
    message the user has not liked, a remove-like request with a valid
    token and a came-from field reaches the removal from the list of
    liked messages, which the handler does not guard by a membership
    test: the removal raises ValueError, and nothing changes. *)
Theorem remove_like_not_liked_raises w u message_id m request came_from :
  logged_in w u →
  find_message (db w) message_id = Some m →
  message_id ∉ liked_messages (db w) (User.id u) →
  method request = POST →
  token_valid (csrf_secret w) request = true →
  form request !! "came-from" = Some came_from →
  app (route_remove_like message_id) w request = (w, Raise ValueError).
Proof.
  intros Hu Hm Hnl Hpost Htok Hcf.
  rewrite app_allowed by allowed Hpost.
  unfold logged_in in Hu. rewrite Hu. simpl view.
  unfold remove_like. unfold_monad. simpl.
  rewrite Hcf; simpl. rewrite Hpost; simpl. rewrite Htok; simpl.
  rewrite Hm; simpl.
  rewrite list_remove_None.
  - simpl. by destruct w.
  - intros Hin. apply Hnl. unfold liked_messages.
    apply list_elem_of_fmap. eexists. split; [|apply list_elem_of_filter; split; [|done]].
    + simpl. by rewrite (find_message_id _ _ _ Hm).
    + done.
Qed.
End Likes.

(** [u1] likes the message [u1] wrote. *)
Lemma like_own_message_is_noop_witness :
  logged_in (world_of test_database u1) u1
  ∧ Message.user_id m1 = User.id u1
  ∧ app (route_like 1) (world_of test_database u1)
        (post [("csrf_token", "token"); ("came-from", "/users/1")]) =
      (flashed "message" "High-fiving yourself is not a good look."
               (world_of test_database u1),
       Return (Redirect "/users/1")).
Proof.
  split; [reflexivity|]. split; [reflexivity|].
  apply (like_own_message_is_noop _ u1 1 m1); reflexivity.
Defined.

(** Claim C5 as stated fails.  The handler reads the came-from field
    before anything else: a like of one's own message, with a valid token
    and no such field, is a bad request that flashes nothing. *)
Lemma like_own_message_without_came_from :
  logged_in (world_of test_database u1) u1
  ∧ find_message test_database 1 = Some m1
  ∧ Message.user_id m1 = User.id u1
  ∧ token_valid (csrf_secret (world_of test_database u1))
                (post [("csrf_token", "token")]) = true
  ∧ app (route_like 1) (world_of test_database u1) (post [("csrf_token", "token")]) =
      (world_of test_database u1, Raise (BadRequestKeyError "came-from"))
  ∧ flashes (world_of test_database u1) = [].
Proof. vm_compute. repeat split; reflexivity. Qed.

(** [u2] removes a like of a message [u2] never liked. *)
Lemma remove_like_not_liked_raises_witness :
  logged_in (world_of test_database u2) u2
  ∧ (1 ∉ liked_messages test_database (User.id u2))
  ∧ app (route_remove_like 1) (world_of test_database u2)
        (post [("csrf_token", "token"); ("came-from", "/")]) =
      (world_of test_database u2, Raise ValueError).
Proof.
  split; [reflexivity|]. split; [apply not_elem_of_nil|].
  apply (remove_like_not_liked_raises _ u2 1 m1 _ "/");
    [reflexivity|reflexivity|apply not_elem_of_nil|reflexivity..].
Defined.

(** Claim C9 as stated fails.  Without the came-from field the request
    is refused as a bad request before the removal is reached. *)
Lemma remove_like_without_came_from :
  logged_in (world_of test_database u2) u2
  ∧ find_message test_database 1 = Some m1
  ∧ liked_messages test_database (User.id u2) = []
  ∧ token_valid (csrf_secret (world_of test_database u2))
                (post [("csrf_token", "token")]) = true
  ∧ app (route_remove_like 1) (world_of test_database u2) (post [("csrf_token", "token")]) =
      (world_of test_database u2, Raise (BadRequestKeyError "came-from")).
Proof. vm_compute. repeat split; reflexivity. Qed.

(** ** Signup *)

Section Signup.
Context `{Models} `{Forms}.

(** A valid signup whose username and email are not in use stores the
    user and logs it in. *)
Lemma signup_fresh w request :
  valid_submission UserAddForm w request →
  unique_users (db w) →
  data request "username" ∉ usernames (db w) →
  data request "email" ∉ emails (db w) →
  app route_signup w request =
    (signed_up (submitted_user (db w) request) w, Return (Redirect "/")).
Proof.
  intros (Hpost & Htok & Hok) Hu Hname Hmail.
  rewrite app_allowed by allowed Hpost.
  simpl view. generalize (mkG (current_user w)) as g. intros g.
  unfold signup, User_signup. unfold_monad. simpl.
  rewrite Hpost; simpl.
  destruct (decide (is_Some (session w !! CURR_USER_KEY))) as [Hs|Hs]; simpl;
    rewrite Htok, Hok; simpl;
    fold (submitted_user (db w) request);
    rewrite (flush_ok_fresh (db w) (submitted_user (db w) request)) by done;
    simpl; unfold signed_up, leave; simpl; rewrite ?insert_delete_eq; done.
Qed.

(** A valid signup whose username is in use stores nothing. *)
Lemma signup_taken w request :
  valid_submission UserAddForm w request →
  data request "username" ∈ usernames (db w) →
  app route_signup w request =
    (flashed "danger" "Username already taken" (logged_out w),
     Return (RenderTemplate "users/signup.html" [("form", VForm "UserAddForm")])).
Proof.
  intros (Hpost & Htok & Hok) Hname.
  rewrite app_allowed by allowed Hpost.
  simpl view. generalize (mkG (current_user w)) as g. intros g.
  unfold signup, User_signup. unfold_monad. simpl.
  rewrite Hpost; simpl.
  destruct (decide (is_Some (session w !! CURR_USER_KEY))) as [Hs|Hs]; simpl;
    rewrite Htok, Hok; simpl;
    fold (submitted_user (db w) request);
    rewrite (flush_ok_taken (db w) (submitted_user (db w) request)) by done;
    simpl; unfold flashed, logged_out, leave; simpl; [done|].
  by rewrite (delete_id (session w)) by (by apply eq_None_not_Some).
Qed.

(** Claim C6, amended.  On a users table that satisfies its uniqueness
    constraints, two valid signups whose usernames and emails are
    distinct from each other and from those in use both succeed, each
    storing its user; a third valid signup that reuses a username then
    fails: the form is presented again with the message "Username
    already taken", no row is stored, and nobody is logged in. *)
Theorem signup_distinct_then_duplicate w r1 r2 r3 :
  unique_users (db w) →
  valid_submission UserAddForm w r1 →
  valid_submission UserAddForm w r2 →
  valid_submission UserAddForm w r3 →
  data r1 "username" ∉ usernames (db w) →
  data r1 "email" ∉ emails (db w) →
  data r2 "username" ∉ usernames (db w) →
  data r2 "email" ∉ emails (db w) →
  data r1 "username" ≠ data r2 "username" →
  data r1 "email" ≠ data r2 "email" →
  data r3 "username" ∈ usernames (db w) ++ [data r1 "username"; data r2 "username"] →
  let '(w1, result1) := app route_signup w r1 in
  let '(w2, result2) := app route_signup w1 r2 in
  let '(w3, result3) := app route_signup w2 r3 in
  result1 = Return (Redirect "/")
  ∧ result2 = Return (Redirect "/")
  ∧ usernames (db w2) = usernames (db w) ++ [data r1 "username"; data r2 "username"]
  ∧ result3 = Return (RenderTemplate "users/signup.html" [("form", VForm "UserAddForm")])
  ∧ flashes w3 = flashes w2 ++ [("danger", "Username already taken")]
  ∧ db w3 = db w2
  ∧ session w3 !! CURR_USER_KEY = None.
Proof.
  intros Hu Hv1 Hv2 Hv3 Hn1 He1 Hn2 He2 Hn He Hn3.
  rewrite (signup_fresh w r1) by done.
  set (a := submitted_user (db w) r1).
  assert (unique_users (db (signed_up a w))) as Hu1 by (by apply unique_users_add).
  rewrite (signup_fresh (signed_up a w) r2); [|done|done|..].
  2:{ simpl. rewrite usernames_add. rewrite elem_of_app, list_elem_of_singleton.
      intros [?|?]; [done|]. by apply Hn. }
  2:{ simpl. rewrite emails_add. rewrite elem_of_app, list_elem_of_singleton.
      intros [?|?]; [done|]. by apply He. }
  set (b := submitted_user (db (signed_up a w)) r2).
  assert (usernames (db (signed_up b (signed_up a w)))
          = usernames (db w) ++ [data r1 "username"; data r2 "username"]) as Hnames.
  { simpl. rewrite !usernames_add. by rewrite <- app_assoc. }
  rewrite (signup_taken (signed_up b (signed_up a w)) r3); [|done|by rewrite Hnames].
  simpl. split; [done|]. split; [done|]. split; [done|]. split; [done|].
  split; [done|]. split; [done|]. apply lookup_delete_eq.
Qed.

(** Claim C10.  After any request to the signup route the current-user
    key is absent from the session, unless a new user has been stored,
    in which case the key names that user and the answer is the
    redirect to the homepage. *)
Theorem signup_logs_out w request :
  let '(w', result) := app route_signup w request in
  session w' !! CURR_USER_KEY = None
  ∨ ∃ u, users (db w') = users (db w) ++ [u]
         ∧ session w' !! CURR_USER_KEY = Some (User.id u)
         ∧ result = Return (Redirect "/").
Proof.
  rewrite app_allowed by (destruct (method request); repeat constructor).
  simpl view. generalize (mkG (current_user w)) as g. intros g.
  unfold signup, User_signup. unfold_monad. simpl.
  assert (∀ s : gmap string nat,
    c_session (if decide (is_Some (s !! CURR_USER_KEY))
               then mkCtx (db w) (db w) [] (delete CURR_USER_KEY s)
                      (csrf_secret w) (flashes w)
               else mkCtx (db w) (db w) [] s (csrf_secret w) (flashes w))
      !! CURR_USER_KEY = None) as Hout.
  { intros s. case_decide; simpl; [apply lookup_delete_eq|by apply eq_None_not_Some]. }
  specialize (Hout (session w)).
  destruct (decide (is_Some (session w !! CURR_USER_KEY))); simpl in *;
    repeat (case_match; simpl in *; simplify_eq); auto;
    right; eexists; (split; [done|split; [apply lookup_insert_eq|done]]).
Qed.
End Signup.

(** Claim C6 as stated fails.  Two valid signups with the usernames [u1]
    and [u2] and one email: the first succeeds, the second is answered
    with "Username already taken" and stores nothing. *)
Lemma signup_distinct_usernames_same_email :
  let r1 := post [("csrf_token", "token"); ("username", "u1");
                  ("email", "u1@email.com"); ("password", "password")] in
  let r2 := post [("csrf_token", "token"); ("username", "u2");
                  ("email", "u1@email.com"); ("password", "password")] in
  let w1 := (app route_signup (anonymous empty_database) r1).1 in
  valid_submission UserAddForm (anonymous empty_database) r1
  ∧ valid_submission UserAddForm w1 r2
  ∧ data r1 "username" ≠ data r2 "username"
  ∧ (app route_signup (anonymous empty_database) r1).2 = Return (Redirect "/")
  ∧ app route_signup w1 r2 =
      (flashed "danger" "Username already taken" (logged_out w1),
       Return (RenderTemplate "users/signup.html" [("form", VForm "UserAddForm")]))
  ∧ usernames (db (app route_signup w1 r2).1) = ["u1"].
Proof.
  vm_compute. repeat split; (reflexivity || discriminate).
Qed.

(** The signups of the test suite, [u1] and [u2], and a third one that
    asks for the username [u1] again. *)
Lemma signup_distinct_then_duplicate_witness :
  let r1 := post [("csrf_token", "token"); ("username", "u1");
                  ("email", "u1@email.com"); ("password", "password")] in
  let r2 := post [("csrf_token", "token"); ("username", "u2");
                  ("email", "u2@email.com"); ("password", "password")] in
  let r3 := post [("csrf_token", "token"); ("username", "u1");
                  ("email", "u3@email.com"); ("password", "password")] in
  let '(w1, result1) := app route_signup (anonymous empty_database) r1 in
  let '(w2, result2) := app route_signup w1 r2 in
  let '(w3, result3) := app route_signup w2 r3 in
  result1 = Return (Redirect "/")
  ∧ result2 = Return (Redirect "/")
  ∧ usernames (db w2) = [] ++ ["u1"; "u2"]
  ∧ result3 = Return (RenderTemplate "users/signup.html" [("form", VForm "UserAddForm")])
  ∧ flashes w3 = flashes w2 ++ [("danger", "Username already taken")]
  ∧ db w3 = db w2
  ∧ session w3 !! CURR_USER_KEY = None.
Proof.
  intros r1 r2 r3.
  apply (signup_distinct_then_duplicate (anonymous empty_database) r1 r2 r3);
    try (repeat split; reflexivity); try apply not_elem_of_nil; try discriminate.
  - split; constructor.
  - apply list_elem_of_here.
Defined.

(** ** Deleting a user *)

(** After the loop of the handler a cascade of the data model to the
    messages of the user has nothing left to delete: with or without it,
    the deletion of the row gives the same database. *)
Lemma cascade_finds_nothing u d :
  let d1 := fold_left (λ d m, db_delete_message m d) (messages_of d (User.id u)) d in
  db_delete_user_cascade u d1 = db_delete_user u d1.
Proof.
  cbv zeta. unfold db_delete_user_cascade, db_delete_user.
  rewrite messages_of_deleted. f_equal.
  - apply filter_all. intros x Hx Hid.
    assert (x ∈ messages_of
                  (fold_left (λ d m, db_delete_message m d)
                             (messages_of d (User.id u)) d) (User.id u)) as Hin
      by (by apply list_elem_of_filter).
    rewrite messages_of_deleted in Hin. by apply elem_of_nil in Hin.
  - apply list_filter_iff. intros l. simpl. split; [tauto|].
    intros Hl. split; [done|]. apply not_elem_of_nil.
Qed.

Section DeleteUser.
Context `{Models} `{Forms}.

(** Claim C7.  For every logged-in user, a delete-user request with a
    valid token succeeds with the redirect to the signup page, after
    which the user's row is gone, no message owned by the user is left,
    and the current-user key has left the session.  The messages are
    deleted by the loop of the handler, one by one, before the row of the
    user: the messages that are left are those of the table whose id is
    not the id of a message of the user. *)
Theorem delete_user_cascades w u request :
  logged_in w u →
  method request = POST →
  token_valid (csrf_secret w) request = true →
  let '(w', result) := app route_delete_user w request in
  result = Return (Redirect "/signup")
  ∧ find_user (db w') (User.id u) = None
  ∧ messages_of (db w') (User.id u) = []
  ∧ (∀ m, m ∈ messages (db w') ↔
          m ∈ messages (db w)
          ∧ Message.id m ∉ Message.id <$> messages_of (db w) (User.id u))
  ∧ session w' !! CURR_USER_KEY = None.
Proof.
  intros Hu Hpost Htok.
  rewrite app_allowed by allowed Hpost.
  pose proof (logged_in_id _ _ Hu) as Hs.
  unfold logged_in in Hu. rewrite Hu. simpl view.
  unfold delete_user. unfold_monad. simpl.
  rewrite Hpost; simpl. rewrite Htok; simpl.
  rewrite decide_True by (by rewrite Hs). simpl.
  rewrite delete_loop. simpl. rewrite flush_ok_nil. simpl.
  split; [done|]. split; [apply find_user_deleted|].
  split; [apply (messages_of_deleted (db w))|].
  split; [|apply lookup_delete_eq].
  intros m. rewrite messages_after_loop, list_elem_of_filter. tauto.
Qed.
End DeleteUser.

(** [u1], who wrote [m1], deletes the account; the message [m2] of [u2]
    stays. *)
Lemma delete_user_cascades_witness :
  logged_in (world_of feed_database u1) u1
  ∧ messages feed_database = [m1; m2]
  ∧ messages_of feed_database (User.id u1) = [m1]
  ∧ (let '(w', result) :=
       app route_delete_user (world_of feed_database u1) (post [("csrf_token", "token")]) in
     result = Return (Redirect "/signup")
     ∧ find_user (db w') (User.id u1) = None
     ∧ messages_of (db w') (User.id u1) = []
     ∧ (∀ m, m ∈ messages (db w') ↔
             m ∈ messages feed_database
             ∧ Message.id m ∉ Message.id <$> messages_of feed_database (User.id u1))
     ∧ session w' !! CURR_USER_KEY = None).
Proof.
  split; [reflexivity|]. split; [reflexivity|]. split; [reflexivity|].
  apply (delete_user_cascades (world_of feed_database u1) u1); reflexivity.
Defined.

(** ** Following *)

Section Following.
Context `{Models} `{Forms}.

(** Claim C8.  The follow handler does not compare the followed user
    with the requester: for every logged-in user, and so for some, a
    follow request with a valid token for the user's own id succeeds,
    and the user's own id is added to the users the user follows. *)
Theorem self_follow_is_not_blocked w u request :
  logged_in w u →
  method request = POST →
  token_valid (csrf_secret w) request = true →
  app (route_start_following (User.id u)) w request =
    (mkWorld (db_add_follow (Follow.mk (User.id u) (User.id u)) (db w))
             (session w) (csrf_secret w) (flashes w),
     Return (Redirect ("/users/" +:+ pretty (User.id u) +:+ "/following")))
  ∧ following (db_add_follow (Follow.mk (User.id u) (User.id u)) (db w)) (User.id u)
    = following (db w) (User.id u) ++ [User.id u].
Proof.
  intros Hu Hpost Htok. split.
  - rewrite app_allowed by allowed Hpost.
    pose proof (logged_in_find _ _ Hu) as Hf.
    unfold logged_in in Hu. rewrite Hu. simpl view.
    unfold start_following. unfold_monad. simpl.
    rewrite Hpost; simpl. rewrite Htok; simpl. rewrite Hf; simpl.
    by rewrite flush_ok_nil.
  - unfold following, db_add_follow; simpl.
    rewrite filter_app, fmap_app. f_equal.
    by rewrite filter_cons_True by done.
Qed.
End Following.

(** [u1], who follows nobody, follows [u1]. *)
Lemma self_follow_is_not_blocked_witness :
  logged_in (world_of test_database u1) u1
  ∧ following test_database 1 = []
  ∧ app (route_start_following 1) (world_of test_database u1)
        (post [("csrf_token", "token")]) =
      (world_of (mkDatabase [u1; u2] [m1] [Follow.mk 1 1] [] 3 2) u1,
       Return (Redirect "/users/1/following"))
  ∧ following (mkDatabase [u1; u2] [m1] [Follow.mk 1 1] [] 3 2) 1 = [1].
Proof.
  split; [reflexivity|]. split; [reflexivity|].
  apply (self_follow_is_not_blocked (world_of test_database u1) u1); reflexivity.
Defined.

(** Following is directional: when a user follows another one whom the
    user does not follow yet, the id of the other one is added to the
    users the user follows, and the users that the other one follows are
    as they were. *)
Section Directional.
Context `{Models} `{Forms}.

Theorem follow_is_directional w u v request :
  logged_in w u →
  find_user (db w) (User.id v) = Some v →
  User.id v ≠ User.id u →
  User.id v ∉ following (db w) (User.id u) →
  method request = POST →
  token_valid (csrf_secret w) request = true →
  let '(w', result) := app (route_start_following (User.id v)) w request in
  result = Return (Redirect ("/users/" +:+ pretty (User.id u) +:+ "/following"))
  ∧ following (db w') (User.id u) = following (db w) (User.id u) ++ [User.id v]
  ∧ following (db w') (User.id v) = following (db w) (User.id v).
Proof.
  intros Hu Hv Hne _ Hpost Htok.
  rewrite app_allowed by allowed Hpost.
  unfold logged_in in Hu. rewrite Hu. simpl view.
  unfold start_following. unfold_monad. simpl.
  rewrite Hpost; simpl. rewrite Htok; simpl. rewrite Hv; simpl.
  rewrite flush_ok_nil. simpl. split; [done|].
  unfold following; simpl. rewrite !filter_app, !fmap_app.
  rewrite filter_cons_True by done.
  rewrite (filter_cons_False (λ f, Follow.follower_id f = User.id v))
    by (simpl; congruence).
  rewrite filter_nil. simpl. by rewrite app_nil_r.
Qed.
End Directional.

(** [u1] follows [u2]; [u2] follows nobody, before and after. *)
Lemma follow_is_directional_witness :
  logged_in (world_of test_database u1) u1
  ∧ following test_database 1 = []
  ∧ (let '(w', result) :=
       app (route_start_following 2) (world_of test_database u1)
           (post [("csrf_token", "token")]) in
     result = Return (Redirect "/users/1/following")
     ∧ following (db w') 1 = [] ++ [2]
     ∧ following (db w') 2 = []).
Proof.
  split; [reflexivity|]. split; [reflexivity|].
  apply (follow_is_directional (world_of test_database u1) u1 u2);
    [reflexivity|reflexivity|discriminate|apply not_elem_of_nil
    |reflexivity|reflexivity].
Defined.

(** ** The uniqueness constraints are an invariant *)

Lemma NoDup_count {A B} `{EqDecision B} (f : A → B) (l : list A) :
  (∀ u, u ∈ l → length (filter (λ v, f v = f u) l) ≤ 1) → NoDup (f <$> l).
Proof.
  induction l as [|a l IH]; intros Hc; [constructor|].
  simpl. apply NoDup_cons. split.
  - intros (v & Hv & Hin)%list_elem_of_fmap.
    specialize (Hc a (list_elem_of_here _ _)).
    rewrite filter_cons_True in Hc by done. simpl in Hc.
    assert (1 ≤ length (filter (λ v, f v = f a) l)) as Ht.
    { apply count_taken. rewrite Hv. by apply list_elem_of_fmap_2. }
    lia.
  - apply IH. intros u Hu. specialize (Hc u (list_elem_of_further _ _ _ Hu)).
    rewrite filter_cons in Hc. case_decide; simpl in Hc; lia.
Qed.

Lemma count_split {A} (P Q : A → Prop) `{∀ x, Decision (P x)} `{∀ x, Decision (Q x)} l :
  length (filter P l)
  = length (filter P (filter Q l)) + length (filter P (filter (λ x, ¬ Q x) l)).
Proof.
  induction l as [|a l IH]; [done|].
  destruct (decide (Q a)) as [Hq|Hq].
  - rewrite (filter_cons_True Q) by done.
    rewrite (filter_cons_False (λ x, ¬ Q x)) by (intros Hn; by apply Hn).
    rewrite !(filter_cons P a). case_decide; simpl; lia.
  - rewrite (filter_cons_False Q) by done.
    rewrite (filter_cons_True (λ x, ¬ Q x)) by done.
    rewrite !(filter_cons P a). case_decide; simpl; lia.
Qed.

(** If the rows that are not pending are pairwise distinct, and each
    pending row is alone with its value in the table, the table has no
    duplicate. *)
Lemma NoDup_flushed {B} `{EqDecision B} (f : User.t → B) (p : list nat) (l : list User.t) :
  NoDup (f <$> filter (λ u, User.id u ∉ p) l) →
  (∀ u, u ∈ l → User.id u ∈ p → length (filter (λ v, f v = f u) l) ≤ 1) →
  NoDup (f <$> l).
Proof.
  intros Hclean Hpend. apply NoDup_count. intros u Hu.
  destruct (decide (User.id u ∈ p)) as [Hp|Hp]; [by apply Hpend|].
  rewrite (count_split _ (λ x, User.id x ∉ p)).
  pose proof (count_unique f _ (f u) Hclean) as Hc.
  destruct (filter (λ v, f v = f u) (filter (λ x, ¬ (User.id x ∉ p)) l))
    as [|v vs] eqn:Hv; [simpl; lia|].
  assert (v ∈ filter (λ v, f v = f u) (filter (λ x, ¬ (User.id x ∉ p)) l)) as Hin
    by (rewrite Hv; left).
  apply list_elem_of_filter in Hin as [Hfv Hin].
  apply list_elem_of_filter in Hin as [Hvp Hvl].
  assert (User.id v ∈ p) as Hvp' by (destruct (decide (User.id v ∈ p)); tauto).
  specialize (Hpend v Hvl Hvp').
  rewrite (count_split _ (λ x, User.id x ∉ p)) in Hpend.
  assert (1 ≤ length (filter (λ w, f w = f v) (filter (λ x, User.id x ∉ p) l))) as H1.
  { apply count_taken. rewrite Hfv. apply list_elem_of_fmap_2.
    by apply list_elem_of_filter. }
  assert (1 ≤ length (filter (λ w, f w = f v) (filter (λ x, ¬ (User.id x ∉ p)) l))) as H2.
  { apply count_taken. apply list_elem_of_fmap_2. by apply list_elem_of_filter. }
  lia.
Qed.

Lemma NoDup_fmap_sublist {A B} (f : A → B) (l k : list A) :
  l `sublist_of` k → NoDup (f <$> k) → NoDup (f <$> l).
Proof. intros Hs Hk. eapply sublist_NoDup; [exact Hk|]. by apply fmap_sublist. Qed.

Lemma filter_not_pending_nil (l : list User.t) :
  filter (λ u, User.id u ∉ []) l = l.
Proof.
  induction l as [|u l IH]; [done|].
  rewrite filter_cons_True by apply not_elem_of_nil. by rewrite IH.
Qed.

Lemma consistent_enter w : unique_users (db w) → consistent (enter w).
Proof.
  intros Hu. unfold consistent, clean_users; simpl.
  rewrite filter_not_pending_nil. by destruct Hu.
Qed.

(** A step that leaves the committed table alone and only takes rows
    away from the clean ones keeps the context consistent. *)
Lemma consistent_shrink c c' :
  store c' = store c →
  clean_users c' `sublist_of` clean_users c →
  consistent c → consistent c'.
Proof.
  intros Hs Hsub (Hu & Hn & He). unfold consistent. rewrite Hs.
  split; [done|]. split; by eapply NoDup_fmap_sublist.
Qed.

Lemma consistent_frame c c' :
  store c' = store c →
  users (orm c') = users (orm c) →
  pending c' = pending c →
  consistent c → consistent c'.
Proof.
  intros Hs Hu Hp. apply consistent_shrink; [done|].
  unfold clean_users. by rewrite Hu, Hp.
Qed.

Lemma preserves_ret {A} (a : A) : preserves (ret a).
Proof. by intros c Hc. Qed.

Lemma preserves_raise {A} e : preserves (raise (A:=A) e).
Proof. by intros c Hc. Qed.

Lemma preserves_gets {A} (f : Ctx → A) : preserves (gets f).
Proof. by intros c Hc. Qed.

Lemma preserves_bind {A B} (m : M A) (f : A → M B) :
  preserves m → (∀ a, preserves (f a)) → preserves (bind m f).
Proof.
  intros Hm Hf c Hc. unfold bind. specialize (Hm c Hc).
  destruct (m c) as [c' [a|e]]; simpl in *; [by apply Hf|done].
Qed.

Lemma preserves_try_except {A} (body handler : M A) e :
  preserves body → preserves handler → preserves (try_except body e handler).
Proof.
  intros Hb Hh c Hc. unfold try_except. specialize (Hb c Hc).
  destruct (body c) as [c' [a|e']]; simpl in *; [done|].
  case_decide; [by apply Hh|done].
Qed.

Lemma preserves_for_each {A} (l : list A) (body : A → M unit) :
  (∀ x, preserves (body x)) → preserves (for_each l body).
Proof.
  intros Hb. induction l as [|x l IH]; simpl; [apply preserves_ret|].
  by apply preserves_bind.
Qed.

Lemma preserves_frame (f : Ctx → Ctx) :
  (∀ c, store (f c) = store c
        ∧ users (orm (f c)) = users (orm c)
        ∧ pending (f c) = pending c) →
  preserves (modify f).
Proof.
  intros Hf c Hc. destruct (Hf c) as (Hs & Hu & Hp). simpl.
  by apply (consistent_frame c).
Qed.

Lemma preserves_flash message category : preserves (flash message category).
Proof. by apply preserves_frame. Qed.

Lemma preserves_do_login u : preserves (do_login u).
Proof. by apply preserves_frame. Qed.

Lemma preserves_do_logout : preserves do_logout.
Proof. apply preserves_frame. intros c. by case_decide. Qed.

Lemma preserves_delete_message m : preserves (db_session_delete_message m).
Proof. by apply preserves_frame. Qed.

Lemma preserves_following_append u v : preserves (following_append u v).
Proof. by apply preserves_frame. Qed.

Lemma preserves_liked_messages_append u m : preserves (liked_messages_append u m).
Proof. by apply preserves_frame. Qed.

Lemma preserves_messages_append u text now : preserves (messages_append u text now).
Proof. by apply preserves_frame. Qed.

Lemma preserves_following_remove u v : preserves (following_remove u v).
Proof.
  intros c Hc. unfold following_remove. case_match; simpl; [|done].
  by apply (consistent_frame c).
Qed.

Lemma preserves_liked_messages_remove u m : preserves (liked_messages_remove u m).
Proof.
  intros c Hc. unfold liked_messages_remove. case_match; simpl; [|done].
  by apply (consistent_frame c).
Qed.

Lemma sublist_filter_filter {A} (P Q : A → Prop)
    `{∀ x, Decision (P x)} `{∀ x, Decision (Q x)} (l : list A) :
  filter P (filter Q l) `sublist_of` filter P l.
Proof.
  induction l as [|a l IH]; [done|].
  rewrite (filter_cons Q), (filter_cons P a l).
  destruct (decide (Q a)); [rewrite filter_cons|]; case_decide;
    auto using sublist_skip, sublist_cons.
Qed.

Lemma preserves_delete_user u : preserves (db_session_delete_user u).
Proof.
  intros c. apply consistent_shrink; [done|].
  unfold clean_users; simpl. apply sublist_filter_filter.
Qed.

Lemma preserves_orm_update u : preserves (orm_update u).
Proof.
  intros c. apply consistent_shrink; [done|].
  unfold clean_users; simpl.
  induction (users (orm c)) as [|v vs IH]; [done|]. simpl.
  destruct (decide (User.id v = User.id u)) as [Hv|Hv].
  - rewrite filter_cons_False by (intros Hn; apply Hn; left).
    rewrite filter_cons. case_decide; [by apply sublist_cons|done].
  - rewrite !(filter_cons _ v).
    destruct (decide (User.id v ∈ pending c)) as [Hp|Hp].
    + rewrite decide_False by (intros Hn; apply Hn; by right).
      by rewrite decide_False by (intros Hn; by apply Hn).
    + rewrite decide_True by (intros [?|?]%elem_of_cons; done).
      rewrite decide_True by done. by apply sublist_skip.
Qed.

Lemma preserves_flush : preserves flush.
Proof.
  intros c (Hu & Hn & He). unfold flush.
  destruct (flush_ok (orm c) (pending c)) eqn:Hok; simpl; [|done].
  unfold flush_ok in Hok. rewrite forallb_forall in Hok.
  assert (∀ u, u ∈ users (orm c) → User.id u ∈ pending c →
               unique_row (orm c) u = true) as Hrow.
  { intros u Hin Hp. specialize (Hok u (proj1 (list_elem_of_In _ _) Hin)).
    by rewrite bool_decide_eq_true_2 in Hok by done. }
  unfold consistent, clean_users; simpl. rewrite filter_not_pending_nil.
  split; [done|]. split.
  - apply (NoDup_flushed User.username (pending c)); [done|].
    intros u Hin Hp. specialize (Hrow u Hin Hp).
    apply andb_true_iff in Hrow as [Hr _]. by apply bool_decide_eq_true in Hr.
  - apply (NoDup_flushed User.email (pending c)); [done|].
    intros u Hin Hp. specialize (Hrow u Hin Hp).
    apply andb_true_iff in Hrow as [_ Hr]. by apply bool_decide_eq_true in Hr.
Qed.

Lemma preserves_commit : preserves db_session_commit.
Proof.
  intros c Hc. unfold db_session_commit, bind.
  pose proof (preserves_flush c Hc) as Hf. unfold flush in *.
  destruct (flush_ok (orm c) (pending c)); simpl in *; [|done].
  destruct Hf as (_ & Hn & He). unfold consistent, clean_users in *; simpl in *.
  rewrite filter_not_pending_nil in *. done.
Qed.

Lemma preserves_form_getitem request key : preserves (form_getitem request key).
Proof. unfold form_getitem. case_match; [apply preserves_ret|apply preserves_raise]. Qed.

Lemma preserves_validate_on_submit fields request :
  preserves (validate_on_submit fields request).
Proof.
  unfold validate_on_submit. case_decide; [|apply preserves_ret].
  apply preserves_bind; [apply preserves_gets|intros; apply preserves_ret].
Qed.

Lemma preserves_User_query_get_or_404 uid : preserves (User_query_get_or_404 uid).
Proof.
  apply preserves_bind; [apply preserves_gets|].
  intros [u|]; [apply preserves_ret|apply preserves_raise].
Qed.

Lemma preserves_Message_query_get_or_404 mid : preserves (Message_query_get_or_404 mid).
Proof.
  apply preserves_bind; [apply preserves_gets|].
  intros [m|]; [apply preserves_ret|apply preserves_raise].
Qed.

Lemma preserves_unauthorized_redirect : preserves unauthorized_redirect.
Proof. apply preserves_bind; [apply preserves_flash|intros; apply preserves_ret]. Qed.

Lemma preserves_add_user_to_g : preserves add_user_to_g.
Proof.
  apply preserves_bind; [apply preserves_gets|]. intros s.
  case_match; [|apply preserves_ret].
  apply preserves_bind; [apply preserves_gets|intros; apply preserves_ret].
Qed.

(** Each step of a handler keeps the context consistent. *)
Ltac preserved_step :=
  lazymatch goal with
  | |- preserves (bind _ _) => apply preserves_bind; [|intros ?]
  | |- preserves (ret _) => apply preserves_ret
  | |- preserves (raise _) => apply preserves_raise
  | |- preserves (gets _) => apply preserves_gets
  | |- preserves (flash _ _) => apply preserves_flash
  | |- preserves (do_login _) => apply preserves_do_login
  | |- preserves do_logout => apply preserves_do_logout
  | |- preserves (db_session_delete_message _) => apply preserves_delete_message
  | |- preserves (db_session_delete_user _) => apply preserves_delete_user
  | |- preserves (following_append _ _) => apply preserves_following_append
  | |- preserves (following_remove _ _) => apply preserves_following_remove
  | |- preserves (liked_messages_append _ _) => apply preserves_liked_messages_append
  | |- preserves (liked_messages_remove _ _) => apply preserves_liked_messages_remove
  | |- preserves (messages_append _ _ _) => apply preserves_messages_append
  | |- preserves (orm_update _) => apply preserves_orm_update
  | |- preserves flush => apply preserves_flush
  | |- preserves db_session_commit => apply preserves_commit
  | |- preserves (form_getitem _ _) => apply preserves_form_getitem
  | |- preserves (validate_on_submit _ _) => apply preserves_validate_on_submit
  | |- preserves (User_query_get_or_404 _) => apply preserves_User_query_get_or_404
  | |- preserves (Message_query_get_or_404 _) => apply preserves_Message_query_get_or_404
  | |- preserves unauthorized_redirect => apply preserves_unauthorized_redirect
  | |- preserves (try_except _ _ _) => apply preserves_try_except
  | |- preserves (for_each _ _) => apply preserves_for_each; intros ?
  | |- preserves (match ?x with _ => _ end) => destruct x
  end.

Ltac preserved := repeat preserved_step.

Section Invariant.
Context `{Models} `{Forms}.

Lemma preserves_User_signup username password email image_url :
  preserves (User_signup username password email image_url).
Proof.
  intros c. apply consistent_shrink; [done|].
  unfold clean_users; simpl. rewrite filter_app.
  rewrite (filter_cons_False _ (new_user _ _ _ _ _))
    by (intros Hn; apply Hn; left).
  rewrite filter_nil, app_nil_r.
  induction (users (orm c)) as [|v vs IH]; [done|].
  rewrite !(filter_cons _ v).
  destruct (decide (User.id v ∈ pending c)) as [Hp|Hp].
  - rewrite decide_False by (intros Hn; apply Hn; by right).
    by rewrite decide_False by (intros Hn; by apply Hn).
  - rewrite (decide_True (P:=User.id v ∉ pending c)) by done.
    case_decide; [by apply sublist_skip|by apply sublist_cons].
Qed.

Lemma preserves_User_authenticate username password :
  preserves (User_authenticate username password).
Proof. unfold User_authenticate. preserved. Qed.

Lemma preserves_view r g request : preserves (view r g request).
Proof.
  destruct r; simpl;
    unfold signup, login, logout, start_following, stop_following,
      handle_user_profile_edit, delete_user, add_message, delete_message,
      like, remove_like, homepage;
    repeat first [ preserved_step | apply preserves_User_signup
                 | apply preserves_User_authenticate ].
Qed.

(** The uniqueness constraints of the users table hold after every
    request if they hold before it: they are an invariant of the
    application, whatever the route, the method and the form. *)
Theorem uniqueness_is_invariant r w request :
  unique_users (db w) → unique_users (db (app r w request).1).
Proof.
  intros Hu. unfold app.
  assert (preserves (handle r request)) as Hp.
  { unfold handle. apply preserves_bind; [apply preserves_add_user_to_g|].
    intros g. case_decide; [apply preserves_view|apply preserves_raise]. }
  specialize (Hp (enter w) (consistent_enter w Hu)).
  destruct (handle r request (enter w)) as [c result]. simpl in *. by destruct Hp.
Qed.
End Invariant.

Lemma uniqueness_is_invariant_witness :
  unique_users test_database
  ∧ unique_users
      (db (app route_signup (world_of test_database u1)
             (post [("csrf_token", "token"); ("username", "u3");
                    ("email", "u3@email.com"); ("password", "password")])).1)
  ∧ usernames
      (db (app route_signup (world_of test_database u1)
             (post [("csrf_token", "token"); ("username", "u3");
                    ("email", "u3@email.com"); ("password", "password")])).1)
    = ["u1"; "u2"; "u3"].
Proof.
  assert (unique_users test_database) as Hu.
  { split; apply (bool_decide_unpack _); vm_compute; reflexivity. }
  split; [exact Hu|]. split; [|vm_compute; reflexivity].
  exact (uniqueness_is_invariant route_signup (world_of test_database u1) _ Hu).
Defined.

(** * Further properties of the handlers *)

(** ** Logging in and out *)

(** The world after a user has been logged in. *)
Definition logged_in_as (u : User.t) (w : World) : World :=
  mkWorld (db w) (<[CURR_USER_KEY := User.id u]> (session w)) (csrf_secret w) (flashes w).

Section Sessions.
Context `{Models} `{Forms}.

(** A logout with a valid token removes the current-user key, flashes its
    message and redirects to the homepage, whether or not anybody was
    logged in; the database is not touched. *)
Theorem logout_clears_session w request :
  method request = POST →
  token_valid (csrf_secret w) request = true →
  app route_logout w request =
    (flashed "message" "Successfully logged out." (logged_out w), Return (Redirect "/"))
  ∧ current_user (logged_out w) = None.
Proof.
  intros Hpost Htok. split.
  - rewrite app_allowed by allowed Hpost.
    simpl view. unfold logout. unfold_monad. simpl.
    rewrite Hpost; simpl. rewrite Htok; simpl.
    case_decide as Hs; simpl; unfold flashed, logged_out, leave; simpl; [done|].
    by rewrite (delete_id (session w)) by (by apply eq_None_not_Some).
  - unfold current_user, logged_out; simpl. by rewrite lookup_delete_eq.
Qed.

Lemma login_run w request :
  valid_submission LoginForm w request →
  app route_login w request =
    match authenticate (db w) (data request "username") (data request "password") with
    | Some u =>
        (flashed "success" ("Hello, " +:+ User.username u +:+ "!") (logged_in_as u w),
         Return (Redirect "/"))
    | None =>
        (flashed "danger" "Invalid credentials." w,
         Return (RenderTemplate "users/login.html" [("form", VForm "LoginForm")]))
    end.
Proof.
  intros (Hpost & Htok & Hok).
  rewrite app_allowed by allowed Hpost.
  simpl view. generalize (mkG (current_user w)) as g. intros g.
  unfold login, User_authenticate. unfold_monad. simpl.
  rewrite Hpost; simpl. rewrite Htok, Hok; simpl.
  rewrite flush_ok_nil; simpl.
  by destruct (authenticate _ _ _).
Qed.

Lemma authenticate_elem d username password u :
  authenticate d username password = Some u →
  u ∈ users d ∧ User.username u = username
  ∧ check_password_hash (User.password u) password = true.
Proof.
  unfold authenticate. destruct (List.find _ _) as [v|] eqn:Hf; [|done].
  destruct (check_password_hash _ _) eqn:Hc; [|done]. intros [= <-].
  apply find_some in Hf as [Hin Hb]. apply bool_decide_eq_true in Hb.
  split; [by apply list_elem_of_In|done].
Qed.

(** A valid login form: when the credentials authenticate a user (a
    stored user of that username whose hash the password verifies), the
    session names that user, whoever was logged in before, the greeting
    is flashed and the answer is the redirect to the homepage; when they
    do not, the session is as it was (a user who was logged in stays
    logged in), "Invalid credentials." is flashed and the form is
    presented again.  The database is the same in both cases. *)
Theorem login_outcomes w request :
  valid_submission LoginForm w request →
  (∀ u, authenticate (db w) (data request "username") (data request "password") = Some u →
     app route_login w request =
       (flashed "success" ("Hello, " +:+ User.username u +:+ "!") (logged_in_as u w),
        Return (Redirect "/"))
     ∧ u ∈ users (db w)
     ∧ User.username u = data request "username"
     ∧ check_password_hash (User.password u) (data request "password") = true)
  ∧ (authenticate (db w) (data request "username") (data request "password") = None →
     app route_login w request =
       (flashed "danger" "Invalid credentials." w,
        Return (RenderTemplate "users/login.html" [("form", VForm "LoginForm")])))
  ∧ db (app route_login w request).1 = db w.
Proof.
  intros Hv. rewrite (login_run w request Hv). split; [|split].
  - intros u Hu. rewrite Hu. split; [done|]. by apply authenticate_elem.
  - by intros ->.
  - by destruct (authenticate _ _ _).
Qed.

Lemma find_appended (l : list User.t) u :
  User.username u ∉ User.username <$> l →
  List.find (λ v, bool_decide (User.username v = User.username u)) (l ++ [u]) = Some u.
Proof.
  induction l as [|v vs IH]; simpl; intros Hfresh.
  - by rewrite bool_decide_eq_true_2.
  - rewrite bool_decide_eq_false_2.
    + apply IH. intros Hin. apply Hfresh. by right.
    + intros Hv. apply Hfresh. rewrite Hv. left.
Qed.

Lemma authenticate_new_user d u password :
  User.username u ∉ usernames d →
  check_password_hash (User.password u) password = true →
  authenticate (db_add_user u d) (User.username u) password = Some u.
Proof.
  intros Hfresh Hc. unfold authenticate, db_add_user; simpl.
  rewrite find_appended by done. by rewrite Hc.
Qed.

(** Signing up and logging in compose: after a signup that succeeds, a
    valid login form with the same username and password, sent in any
    session over the database the signup left (after a logout, from
    another browser), logs the new user in, provided the password hashing
    verifies the hash it has generated for that password. *)
Theorem signup_then_login w signup_request w' login_request :
  valid_submission UserAddForm w signup_request →
  unique_users (db w) →
  data signup_request "username" ∉ usernames (db w) →
  data signup_request "email" ∉ emails (db w) →
  check_password_hash (generate_password_hash (data signup_request "password"))
                      (data signup_request "password") = true →
  db w' = db (app route_signup w signup_request).1 →
  valid_submission LoginForm w' login_request →
  data login_request "username" = data signup_request "username" →
  data login_request "password" = data signup_request "password" →
  (app route_signup w signup_request).2 = Return (Redirect "/")
  ∧ (app route_login w' login_request).2 = Return (Redirect "/")
  ∧ session (app route_login w' login_request).1 !! CURR_USER_KEY
    = Some (User.id (submitted_user (db w) signup_request))
  ∧ db (app route_login w' login_request).1 = db w'.
Proof.
  intros Hv Hu Hname Hmail Hhash Hdb Hv' Hn Hp.
  rewrite (signup_fresh w signup_request) in * by done. simpl in Hdb.
  split; [done|].
  rewrite (login_run w' login_request Hv'). rewrite Hdb, Hn, Hp.
  pose proof (authenticate_new_user (db w) (submitted_user (db w) signup_request)
                (data signup_request "password") Hname Hhash) as Ha.
  simpl in Ha. rewrite Ha. simpl. split; [done|]. split; [|done].
  apply lookup_insert_eq.
Qed.
End Sessions.

Lemma logout_clears_session_witness :
  current_user (world_of test_database u1) = Some u1
  ∧ app route_logout (world_of test_database u1) (post [("csrf_token", "token")]) =
      (flashed "message" "Successfully logged out." (logged_out (world_of test_database u1)),
       Return (Redirect "/"))
  ∧ current_user (logged_out (world_of test_database u1)) = None.
Proof.
  split; [reflexivity|].
  apply (logout_clears_session (world_of test_database u1)); reflexivity.
Defined.

(** [u2] logs in while [u1] is logged in; a wrong password leaves [u1]
    logged in. *)
Lemma login_outcomes_witness :
  app route_login (world_of test_database u1)
      (post [("csrf_token", "token"); ("username", "u2"); ("password", "password")]) =
    (flashed "success" "Hello, u2!" (logged_in_as u2 (world_of test_database u1)),
     Return (Redirect "/"))
  ∧ app route_login (world_of test_database u1)
        (post [("csrf_token", "token"); ("username", "u2"); ("password", "notpassword")]) =
      (flashed "danger" "Invalid credentials." (world_of test_database u1),
       Return (RenderTemplate "users/login.html" [("form", VForm "LoginForm")])).
Proof.
  split.
  - eapply (proj1 (login_outcomes (world_of test_database u1) _ _) u2).
    reflexivity.
  - eapply (proj1 (proj2 (login_outcomes (world_of test_database u1) _ _))).
    reflexivity.
  Unshelve. all: repeat split; reflexivity.
Defined.

(** The signup of [u1] on the empty database, then a login of [u1] by a
    visitor. *)
Lemma signup_then_login_witness :
  (app route_login
     (anonymous (db (app route_signup (anonymous empty_database)
                       (post [("csrf_token", "token"); ("username", "u1");
                              ("email", "u1@email.com"); ("password", "password")])).1))
     (post [("csrf_token", "token"); ("username", "u1"); ("password", "password")])).2
  = Return (Redirect "/")
  ∧ session
      (app route_login
         (anonymous (db (app route_signup (anonymous empty_database)
                           (post [("csrf_token", "token"); ("username", "u1");
                                  ("email", "u1@email.com"); ("password", "password")])).1))
         (post [("csrf_token", "token"); ("username", "u1"); ("password", "password")])).1
    !! CURR_USER_KEY = Some 1.
Proof.
  edestruct (signup_then_login (anonymous empty_database)
    (post [("csrf_token", "token"); ("username", "u1");
           ("email", "u1@email.com"); ("password", "password")])
    (anonymous (db (app route_signup (anonymous empty_database)
                      (post [("csrf_token", "token"); ("username", "u1");
                             ("email", "u1@email.com"); ("password", "password")])).1))
    (post [("csrf_token", "token"); ("username", "u1"); ("password", "password")]))
    as (_ & Hr & Hs & _);
    [repeat split; reflexivity|split; constructor|apply not_elem_of_nil
    |apply not_elem_of_nil|reflexivity|reflexivity|repeat split; reflexivity
    |reflexivity|reflexivity|].
  split; [exact Hr|exact Hs].
Defined.

(** ** The checks at the head of the handlers *)

(** The routes that ask for a logged-in user before anything else. *)
Definition login_first (r : Route) : bool :=
  match r with
  | route_start_following _ | route_profile | route_delete_user
  | route_add_message | route_delete_message _ => true
  | _ => false
  end.

(** The world and the answer of a request that is turned away. *)
Definition turned_away (w : World) : World * Result Response :=
  (flashed "danger" "Access unauthorized." w, Return (Redirect "/")).

Section Checks.
Context `{Models} `{Forms}.

(** A request of nobody (no current-user key in the session, or one that
    names no stored user) is turned away with "Access unauthorized." and
    a redirect to the homepage, and changes nothing else: on follow,
    profile edit, delete user, add message and delete message whatever
    the form; on like and remove-like when the form has its came-from
    field; on stop-following when the user to unfollow exists. *)
Theorem nobody_is_turned_away w request :
  current_user w = None →
  (∀ r, login_first r = true → method request ∈ methods r →
        app r w request = turned_away w)
  ∧ (∀ message_id, method request = POST → is_Some (form request !! "came-from") →
        app (route_like message_id) w request = turned_away w
        ∧ app (route_remove_like message_id) w request = turned_away w)
  ∧ (∀ follow_id, method request = POST → is_Some (find_user (db w) follow_id) →
        app (route_stop_following follow_id) w request = turned_away w).
Proof.
  intros Hu. split; [|split].
  - intros r Hr Hm. rewrite (app_allowed _ _ _ Hm). rewrite Hu.
    destruct r; try discriminate Hr; simpl; unfold_monad; simpl;
      unfold turned_away, flashed, leave; by simpl.
  - intros message_id Hpost [came_from Hcf].
    split; (rewrite app_allowed by allowed Hpost); rewrite Hu; simpl;
      unfold like, remove_like; unfold_monad; simpl; rewrite Hcf; by simpl.
  - intros follow_id Hpost [target Hf].
    rewrite app_allowed by allowed Hpost. rewrite Hu. simpl.
    unfold stop_following. unfold_monad. simpl. rewrite Hf. by simpl.
Qed.

(** A session whose key names a user that is not stored is nobody's. *)
Lemma stale_session_is_nobody w uid :
  session w !! CURR_USER_KEY = Some uid →
  find_user (db w) uid = None →
  current_user w = None.
Proof. intros Hs Hf. unfold current_user. by rewrite Hs. Qed.

(** A target that does not exist is answered with Not Found and nothing
    changes: by stop-following for every requester and every form, since
    it looks the user up before any other check; by delete-message for
    every logged-in user; by follow for a logged-in user with a valid
    token; by like and remove-like for a logged-in user with a valid
    token and a came-from field. *)
Theorem missing_target_is_not_found w request :
  method request = POST →
  (∀ follow_id, find_user (db w) follow_id = None →
     app (route_stop_following follow_id) w request = (w, Raise NotFound))
  ∧ ∀ u, logged_in w u →
      (∀ message_id, find_message (db w) message_id = None →
         app (route_delete_message message_id) w request = (w, Raise NotFound))
      ∧ (token_valid (csrf_secret w) request = true →
         (∀ follow_id, find_user (db w) follow_id = None →
            app (route_start_following follow_id) w request = (w, Raise NotFound))
         ∧ (∀ message_id, find_message (db w) message_id = None →
              is_Some (form request !! "came-from") →
              app (route_like message_id) w request = (w, Raise NotFound)
              ∧ app (route_remove_like message_id) w request = (w, Raise NotFound))).
Proof.
  intros Hpost. split.
  - intros follow_id Hf. rewrite app_allowed by allowed Hpost. simpl.
    unfold stop_following. unfold_monad. simpl. rewrite Hf. simpl. by destruct w.
  - intros u Hu. unfold logged_in in Hu. split.
    + intros message_id Hm. rewrite app_allowed by allowed Hpost. rewrite Hu. simpl.
      unfold delete_message. unfold_monad. simpl. rewrite Hm. simpl. by destruct w.
    + intros Htok. split.
      * intros follow_id Hf. rewrite app_allowed by allowed Hpost. rewrite Hu. simpl.
        unfold start_following. unfold_monad. simpl.
        rewrite Hpost; simpl. rewrite Htok; simpl. rewrite Hf. simpl. by destruct w.
      * intros message_id Hm [came_from Hcf].
        split; (rewrite app_allowed by allowed Hpost); rewrite Hu; simpl;
          unfold like, remove_like; unfold_monad; simpl; rewrite Hcf; simpl;
          rewrite Hpost; simpl; rewrite Htok; simpl; rewrite Hm; simpl; by destruct w.
Qed.

(** Stop-following a user that the requester does not follow is turned
    away like a request of nobody, token or not, and removes nothing. *)
Theorem stop_following_needs_a_follow w u follow_id request :
  logged_in w u →
  method request = POST →
  is_Some (find_user (db w) follow_id) →
  follow_id ∉ following (db w) (User.id u) →
  app (route_stop_following follow_id) w request = turned_away w.
Proof.
  intros Hu Hpost [target Hf] Hnf.
  rewrite app_allowed by allowed Hpost. unfold logged_in in Hu. rewrite Hu. simpl.
  unfold stop_following. unfold_monad. simpl. rewrite Hf. simpl.
  rewrite (find_user_id _ _ _ Hf). by rewrite decide_True by done.
Qed.

(** The profile form flashes "Invalid password" whenever it is shown:
    also on the GET that only asks for the form, for which nothing has
    been submitted; the database and the session are not touched. *)
Theorem profile_form_always_flashes w u request :
  logged_in w u →
  method request = GET →
  app route_profile w request =
    (flashed "message" "Invalid password" w,
     Return (RenderTemplate "users/edit.html"
               [("user", VUser u); ("form", VForm "UserProfileEditForm")])).
Proof.
  intros Hu Hget. rewrite app_allowed by allowed Hget.
  unfold logged_in in Hu. rewrite Hu.
  unfold view, handle_user_profile_edit. run.
  rewrite decide_False by (rewrite Hget; discriminate). run. by destruct w.
Qed.
End Checks.

(** A visitor asks for each of the routes. *)
Lemma nobody_is_turned_away_witness :
  current_user (anonymous test_database) = None
  ∧ app route_delete_user (anonymous test_database) (post [("csrf_token", "token")])
    = turned_away (anonymous test_database)
  ∧ app (route_delete_message 1) (anonymous test_database) (post [])
    = turned_away (anonymous test_database)
  ∧ app route_add_message (anonymous test_database) get
    = turned_away (anonymous test_database).
Proof.
  destruct (nobody_is_turned_away (anonymous test_database)
              (post [("csrf_token", "token")]) eq_refl) as (Hr & _).
  destruct (nobody_is_turned_away (anonymous test_database) (post []) eq_refl)
    as (Hr' & _).
  destruct (nobody_is_turned_away (anonymous test_database) get eq_refl) as (Hr'' & _).
  split; [reflexivity|].
  split; [apply (Hr route_delete_user); [reflexivity|repeat constructor]|].
  split; [apply (Hr' (route_delete_message 1)); [reflexivity|repeat constructor]|].
  apply (Hr'' route_add_message); [reflexivity|repeat constructor].
Defined.

(** Nobody has the id 7, and no message has it. *)
Lemma missing_target_is_not_found_witness :
  app (route_stop_following 7) (anonymous test_database) (post [])
  = (anonymous test_database, Raise NotFound)
  ∧ app (route_delete_message 7) (world_of test_database u1) (post [])
    = (world_of test_database u1, Raise NotFound)
  ∧ status (Raise NotFound) = 404.
Proof.
  split; [|split; [|reflexivity]].
  - apply (proj1 (missing_target_is_not_found (anonymous test_database) (post [])
                    eq_refl) 7 eq_refl).
  - apply (proj1 (proj2 (missing_target_is_not_found (world_of test_database u1)
                           (post []) eq_refl) u1 eq_refl) 7 eq_refl).
Defined.

(** [u1] follows nobody and asks to unfollow [u2], with a valid token. *)
Lemma stop_following_needs_a_follow_witness :
  following test_database (User.id u1) = []
  ∧ app (route_stop_following 2) (world_of test_database u1)
        (post [("csrf_token", "token")])
    = turned_away (world_of test_database u1).
Proof.
  split; [reflexivity|].
  apply (stop_following_needs_a_follow (world_of test_database u1) u1);
    [reflexivity|reflexivity|by eexists|apply not_elem_of_nil].
Defined.

Lemma profile_form_always_flashes_witness :
  app route_profile (world_of test_database u1) get =
    (flashed "message" "Invalid password" (world_of test_database u1),
     Return (RenderTemplate "users/edit.html"
               [("user", VUser u1); ("form", VForm "UserProfileEditForm")])).
Proof.
  apply (profile_form_always_flashes (world_of test_database u1) u1); reflexivity.
Defined.

(** ** Round trips *)

Lemma list_remove_appended `{EqDecision A} (x : A) (l : list A) :
  x ∉ l → list_remove x (l ++ [x]) = Some l.
Proof.
  induction l as [|y l IH]; simpl; intros Hx.
  - by rewrite decide_True.
  - rewrite decide_False by (intros ->; apply Hx; left).
    rewrite IH; [done|]. intros Hin. apply Hx. by right.
Qed.

Lemma not_following_row d uid other :
  other ∉ following d uid → Follow.mk uid other ∉ follows d.
Proof.
  intros Hn Hin. apply Hn. unfold following.
  apply list_elem_of_fmap. exists (Follow.mk uid other).
  split; [done|]. by apply list_elem_of_filter.
Qed.

Lemma not_liked_row d uid mid :
  mid ∉ liked_messages d uid → Like.mk uid mid ∉ likes d.
Proof.
  intros Hn Hin. apply Hn. unfold liked_messages.
  apply list_elem_of_fmap. exists (Like.mk uid mid).
  split; [done|]. by apply list_elem_of_filter.
Qed.

Lemma following_added d uid other :
  following (db_add_follow (Follow.mk uid other) d) uid = following d uid ++ [other].
Proof.
  unfold following, db_add_follow; simpl.
  rewrite filter_app, fmap_app. by rewrite filter_cons_True by done.
Qed.

Lemma filter_fresh {A B} `{EqDecision B} (f : A → B) (l : list A) (x : B) :
  x ∉ f <$> l → filter (λ a, f a ≠ x) l = l.
Proof.
  induction l as [|a l IH]; [done|]. simpl. intros Hx.
  rewrite filter_cons_True by (intros Ha; apply Hx; rewrite Ha; left).
  rewrite IH; [done|]. intros Hin. apply Hx. by right.
Qed.

Section RoundTrips.
Context `{Models} `{Forms}.

(** Follow, then stop following: when the requester did not follow the
    user before, the second request finds the follow the first one has
    stored, removes it, and the world is what it was before the two. *)
Theorem follow_then_unfollow w u v r1 r2 :
  logged_in w u →
  find_user (db w) (User.id v) = Some v →
  User.id v ∉ following (db w) (User.id u) →
  method r1 = POST → token_valid (csrf_secret w) r1 = true →
  method r2 = POST → token_valid (csrf_secret w) r2 = true →
  let '(w1, result1) := app (route_start_following (User.id v)) w r1 in
  let '(w2, result2) := app (route_stop_following (User.id v)) w1 r2 in
  result1 = Return (Redirect ("/users/" +:+ pretty (User.id u) +:+ "/following"))
  ∧ following (db w1) (User.id u) = following (db w) (User.id u) ++ [User.id v]
  ∧ result2 = Return (Redirect ("/users/" +:+ pretty (User.id u) +:+ "/following"))
  ∧ w2 = w.
Proof.
  intros Hu Hv Hnf Hp1 Ht1 Hp2 Ht2.
  assert (app (route_start_following (User.id v)) w r1 =
    (mkWorld (db_add_follow (Follow.mk (User.id u) (User.id v)) (db w))
             (session w) (csrf_secret w) (flashes w),
     Return (Redirect ("/users/" +:+ pretty (User.id u) +:+ "/following")))) as ->.
  { rewrite app_allowed by allowed Hp1. unfold logged_in in Hu. rewrite Hu. simpl view.
    unfold start_following. unfold_monad. simpl.
    rewrite Hp1; simpl. rewrite Ht1; simpl. rewrite Hv; simpl.
    by rewrite flush_ok_nil. }
  rewrite app_allowed by allowed Hp2.
  assert (current_user
            (mkWorld (db_add_follow (Follow.mk (User.id u) (User.id v)) (db w))
                     (session w) (csrf_secret w) (flashes w)) = Some u) as ->.
  { unfold logged_in, current_user in *. simpl. done. }
  simpl view. unfold stop_following. unfold_monad. simpl.
  unfold find_user in *. simpl. rewrite Hv; simpl.
  rewrite decide_False.
  2:{ intros Hn. apply Hn. fold (db_add_follow (Follow.mk (User.id u) (User.id v)) (db w)).
      rewrite following_added. apply elem_of_app. right. left. }
  rewrite Hp2; simpl. rewrite Ht2; simpl.
  rewrite list_remove_appended by (by apply not_following_row). simpl.
  rewrite flush_ok_nil. simpl.
  split; [done|]. split; [apply following_added|]. split; [done|].
  destruct w as [[] ? ? ?]. done.
Qed.

(** Like, then remove the like: for a message of somebody else that the
    requester had not liked, the first request stores the like, the
    second removes it, and the world is what it was before the two. *)
Theorem like_then_remove_like w u message_id m r1 r2 from1 from2 :
  logged_in w u →
  find_message (db w) message_id = Some m →
  Message.user_id m ≠ User.id u →
  message_id ∉ liked_messages (db w) (User.id u) →
  method r1 = POST → token_valid (csrf_secret w) r1 = true →
  form r1 !! "came-from" = Some from1 →
  method r2 = POST → token_valid (csrf_secret w) r2 = true →
  form r2 !! "came-from" = Some from2 →
  let '(w1, result1) := app (route_like message_id) w r1 in
  let '(w2, result2) := app (route_remove_like message_id) w1 r2 in
  result1 = Return (Redirect from1)
  ∧ liked_messages (db w1) (User.id u) = liked_messages (db w) (User.id u) ++ [message_id]
  ∧ result2 = Return (Redirect from2)
  ∧ w2 = w.
Proof.
  intros Hu Hm Hown Hnl Hp1 Ht1 Hf1 Hp2 Ht2 Hf2.
  pose proof (find_message_id _ _ _ Hm) as Hid.
  assert (app (route_like message_id) w r1 =
    (mkWorld (db_add_like (Like.mk (User.id u) message_id) (db w))
             (session w) (csrf_secret w) (flashes w),
     Return (Redirect from1))) as ->.
  { rewrite app_allowed by allowed Hp1. unfold logged_in in Hu. rewrite Hu. simpl view.
    unfold like. unfold_monad. simpl.
    rewrite Hf1; simpl. rewrite Hp1; simpl. rewrite Ht1; simpl. rewrite Hm; simpl.
    rewrite decide_True by done. simpl. rewrite flush_ok_nil. simpl. by rewrite Hid. }
  rewrite app_allowed by allowed Hp2.
  assert (current_user
            (mkWorld (db_add_like (Like.mk (User.id u) message_id) (db w))
                     (session w) (csrf_secret w) (flashes w)) = Some u) as ->.
  { unfold logged_in, current_user in *. simpl. done. }
  simpl view. unfold remove_like. unfold_monad. simpl.
  rewrite Hf2; simpl. rewrite Hp2; simpl. rewrite Ht2; simpl.
  unfold find_message in *. simpl. rewrite Hm; simpl. rewrite Hid.
  rewrite list_remove_appended by (by apply not_liked_row). simpl.
  rewrite flush_ok_nil. simpl.
  split; [done|]. split.
  - unfold liked_messages; simpl. rewrite filter_app, fmap_app.
    by rewrite filter_cons_True by done.
  - split; [done|]. destruct w as [[] ? ? ?]. done.
Qed.

(** Add a message, then delete it: when the next id of the messages
    sequence is not in use, the first request stores a message of the
    requester with the submitted text and the time of the request, the
    second removes it again, and every table is what it was before the
    two; only the sequence has moved on. *)
Theorem add_then_delete_message w u r1 r2 :
  logged_in w u →
  valid_submission MessageForm w r1 →
  method r2 = POST →
  message_seq (db w) ∉ Message.id <$> messages (db w) →
  message_seq (db w) ∉ Like.message_id <$> likes (db w) →
  let posted := Message.mk (message_seq (db w)) (data r1 "text") (now r1) (User.id u) in
  let '(w1, result1) := app route_add_message w r1 in
  let '(w2, result2) := app (route_delete_message (message_seq (db w))) w1 r2 in
  result1 = Return (Redirect ("/users/" +:+ pretty (User.id u)))
  ∧ messages (db w1) = messages (db w) ++ [posted]
  ∧ result2 = Return (Redirect ("/users/" +:+ pretty (User.id u)))
  ∧ db w2 = mkDatabase (users (db w)) (messages (db w)) (follows (db w)) (likes (db w))
                       (user_seq (db w)) (S (message_seq (db w)))
  ∧ session w2 = session w ∧ flashes w2 = flashes w.
Proof.
  intros Hu (Hp1 & Ht1 & Hok) Hp2 Hfresh Hlikes posted.
  assert (app route_add_message w r1 =
    (mkWorld (db_add_message posted (db w)) (session w) (csrf_secret w) (flashes w),
     Return (Redirect ("/users/" +:+ pretty (User.id u))))) as ->.
  { rewrite app_allowed by allowed Hp1. unfold logged_in in Hu. rewrite Hu. simpl view.
    unfold add_message. unfold_monad. simpl.
    rewrite Hp1; simpl. rewrite Ht1, Hok; simpl. by rewrite flush_ok_nil. }
  rewrite app_allowed by allowed Hp2.
  assert (current_user
            (mkWorld (db_add_message posted (db w)) (session w) (csrf_secret w)
                     (flashes w)) = Some u) as ->.
  { unfold logged_in, current_user in *. simpl. done. }
  simpl view. unfold delete_message. unfold_monad. simpl.
  assert (find_message (db_add_message posted (db w)) (message_seq (db w)) = Some posted)
    as Hfind.
  { unfold find_message, db_add_message; simpl. clear -Hfresh.
    induction (messages (db w)) as [|m ms IH]; simpl.
    - by rewrite bool_decide_eq_true_2.
    - rewrite bool_decide_eq_false_2.
      + apply IH. intros Hin. apply Hfresh. by right.
      + intros Hm. apply Hfresh. simpl. rewrite Hm. left. }
  rewrite Hfind. simpl. rewrite flush_ok_nil. simpl.
  split; [done|]. split; [done|]. split; [done|]. split; [|done].
  unfold db_delete_message, with_likes, with_messages; simpl.
  rewrite filter_app. rewrite (filter_cons_False _ posted) by (intros Hn; by apply Hn).
  rewrite filter_nil, app_nil_r.
  rewrite (filter_fresh Message.id) by done.
  by rewrite (filter_fresh Like.message_id) by done.
Qed.
End RoundTrips.

(** [u1] follows [u2] and stops following [u2]. *)
Lemma follow_then_unfollow_witness :
  following test_database (User.id u1) = []
  ∧ (let '(w1, result1) :=
       app (route_start_following 2) (world_of test_database u1)
           (post [("csrf_token", "token")]) in
     let '(w2, result2) :=
       app (route_stop_following 2) w1 (post [("csrf_token", "token")]) in
     result1 = Return (Redirect "/users/1/following")
     ∧ following (db w1) 1 = [] ++ [2]
     ∧ result2 = Return (Redirect "/users/1/following")
     ∧ w2 = world_of test_database u1).
Proof.
  split; [reflexivity|].
  apply (follow_then_unfollow (world_of test_database u1) u1 u2);
    try reflexivity. apply not_elem_of_nil.
Defined.

(** [u2] likes the message of [u1] and takes the like back. *)
Lemma like_then_remove_like_witness :
  liked_messages test_database (User.id u2) = []
  ∧ (let '(w1, result1) :=
       app (route_like 1) (world_of test_database u2)
           (post [("csrf_token", "token"); ("came-from", "/")]) in
     let '(w2, result2) :=
       app (route_remove_like 1) w1
           (post [("csrf_token", "token"); ("came-from", "/users/2")]) in
     result1 = Return (Redirect "/")
     ∧ liked_messages (db w1) 2 = [] ++ [1]
     ∧ result2 = Return (Redirect "/users/2")
     ∧ w2 = world_of test_database u2).
Proof.
  split; [reflexivity|].
  apply (like_then_remove_like (world_of test_database u2) u2 1 m1);
    try reflexivity; [discriminate|apply not_elem_of_nil].
Defined.

(** [u2] posts a message, which gets the id 2, and deletes it. *)
Lemma add_then_delete_message_witness :
  let '(w1, result1) :=
    app route_add_message (world_of test_database u2)
        (post [("csrf_token", "token"); ("text", "hello")]) in
  let '(w2, result2) := app (route_delete_message 2) w1 (post []) in
  result1 = Return (Redirect "/users/2")
  ∧ messages (db w1) = [m1] ++ [Message.mk 2 "hello" 30 2]
  ∧ result2 = Return (Redirect "/users/2")
  ∧ db w2 = mkDatabase [u1; u2] [m1] [] [] 3 3
  ∧ session w2 = session (world_of test_database u2)
  ∧ flashes w2 = [].
Proof.
  apply (add_then_delete_message (world_of test_database u2) u2
           (post [("csrf_token", "token"); ("text", "hello")]) (post []));
    [reflexivity|repeat split; reflexivity|reflexivity|..].
  - intros Hin. by repeat (apply elem_of_cons in Hin as [Hin|Hin]; [discriminate|]);
      apply elem_of_nil in Hin.
  - apply not_elem_of_nil.
Defined.

(** ** Posting and the feed *)

(** A selected message that is strictly newer than every other selected
    one is the first of the feed. *)
Lemma feed_head d ids m :
  Message.user_id m ∈ ids →
  m ∈ messages d →
  (∀ x, x ∈ messages d → x = m ∨ Message.timestamp x < Message.timestamp m) →
  ∃ rest, feed d ids = m :: rest.
Proof.
  intros Hid Hin Hnew. unfold feed.
  set (selected := filter (λ m, Message.user_id m ∈ ids) (messages d)).
  assert (m ∈ selected) as Hsel by (by apply list_elem_of_filter).
  pose proof (StronglySorted_merge_sort newer_first selected) as Hsorted.
  pose proof (merge_sort_Permutation newer_first selected) as Hperm.
  destruct (merge_sort newer_first selected) as [|x xs] eqn:Hl.
  - rewrite <- Hperm in Hsel. by apply elem_of_nil in Hsel.
  - assert (x = m) as ->; [|by eexists].
    assert (x ∈ messages d) as Hx.
    { assert (x ∈ selected) as Hxs by (rewrite <- Hperm; left).
      by apply list_elem_of_filter in Hxs as [_ ?]. }
    destruct (Hnew x Hx) as [?|Hlt]; [done|].
    rewrite <- Hperm in Hsel. apply elem_of_cons in Hsel as [?|Hm]; [done|].
    apply StronglySorted_cons in Hsorted as [Hall _].
    rewrite Forall_forall in Hall. specialize (Hall m Hm).
    unfold newer_first in Hall. lia.
Qed.

Section Posting.
Context `{Models} `{Forms}.

(** Post, then look at the homepage: a message posted at a time later
    than the timestamp of every stored message is stored with the
    submitted text as a message of the requester, and is the first
    message of the requester's home feed. *)
Theorem posted_message_tops_the_feed w u r1 r2 :
  logged_in w u →
  valid_submission MessageForm w r1 →
  method r2 = GET →
  (∀ m, m ∈ messages (db w) → Message.timestamp m < now r1) →
  let '(w1, result1) := app route_add_message w r1 in
  result1 = Return (Redirect ("/users/" +:+ pretty (User.id u)))
  ∧ ∃ rest,
      app route_homepage w1 r2 =
        (w1, Return (RenderTemplate "home.html"
                       [("messages",
                         VMessages (Message.mk (message_seq (db w)) (data r1 "text")
                                               (now r1) (User.id u) :: rest));
                        ("form", VForm "CSRFForm")])).
Proof.
  intros Hu (Hp1 & Ht1 & Hok) Hget Hnew.
  set (posted := Message.mk (message_seq (db w)) (data r1 "text") (now r1) (User.id u)).
  assert (app route_add_message w r1 =
    (mkWorld (db_add_message posted (db w)) (session w) (csrf_secret w) (flashes w),
     Return (Redirect ("/users/" +:+ pretty (User.id u))))) as ->.
  { rewrite app_allowed by allowed Hp1. unfold logged_in in Hu. rewrite Hu. simpl view.
    unfold add_message. unfold_monad. simpl.
    rewrite Hp1; simpl. rewrite Ht1, Hok; simpl. by rewrite flush_ok_nil. }
  split; [done|].
  rewrite app_allowed by allowed Hget.
  assert (current_user
            (mkWorld (db_add_message posted (db w)) (session w) (csrf_secret w)
                     (flashes w)) = Some u) as ->.
  { unfold logged_in, current_user in *. simpl. done. }
  simpl view. unfold homepage. unfold_monad. simpl.
  destruct (feed_head (db_add_message posted (db w))
              (following (db w) (User.id u) ++ [User.id u]) posted) as [rest Hfeed].
  - apply elem_of_app. right. left.
  - simpl. apply elem_of_app. right. left.
  - simpl. intros x [Hx|Hx%list_elem_of_singleton]%elem_of_app; [|by left].
    right. by apply Hnew.
  - exists rest. unfold leave; simpl.
    change (following (db_add_message posted (db w)) (User.id u))
      with (following (db w) (User.id u)) in *.
    by rewrite Hfeed.
Qed.
End Posting.

(** [u1] posts at time 30; the one stored message is of time 10. *)
Lemma posted_message_tops_the_feed_witness :
  let '(w1, result1) :=
    app route_add_message (world_of test_database u1)
        (post [("csrf_token", "token"); ("text", "news")]) in
  result1 = Return (Redirect "/users/1")
  ∧ ∃ rest,
      app route_homepage w1 get =
        (w1, Return (RenderTemplate "home.html"
                       [("messages", VMessages (Message.mk 2 "news" 30 1 :: rest));
                        ("form", VForm "CSRFForm")])).
Proof.
  apply (posted_message_tops_the_feed (world_of test_database u1) u1
           (post [("csrf_token", "token"); ("text", "news")]) get);
    [reflexivity|repeat split; reflexivity|reflexivity|].
  intros m Hm. apply list_elem_of_singleton in Hm as ->. simpl. lia.
Defined.

(** ** A profile edit that authenticates *)

(** The user object after the five assignments of the handler. *)
Section Edited.
Context `{Models}.

Definition edited (request : Request) (u : User.t) : User.t :=
  User.set_header_image_url
    (or_else (data request "header_image_url") DEFAULT_HEADER_IMAGE_URL)
    (User.set_image_url (or_else (data request "image_url") DEFAULT_IMAGE_URL)
       (User.set_bio (data request "bio")
          (User.set_email (data request "email")
             (User.set_username (data request "username") u)))).
End Edited.

(** Writing a user object twice leaves the row of the second write. *)
Lemma db_update_user_twice u1 u2 d :
  User.id u1 = User.id u2 →
  db_update_user u2 (db_update_user u1 d) = db_update_user u2 d.
Proof.
  intros Hid. unfold db_update_user, with_users; simpl. f_equal.
  rewrite <- list_fmap_compose. apply list_fmap_ext. intros _ v _. simpl.
  destruct (decide (User.id v = User.id u1)) as [Hv|Hv].
  - rewrite !decide_True by congruence. done.
  - done.
Qed.

(** A table that satisfies the constraints passes every flush. *)
Lemma flush_ok_unique d p : unique_users d → flush_ok d p = true.
Proof.
  intros [Hn He]. unfold flush_ok. apply forallb_forall. intros u _.
  apply orb_true_iff. right. unfold unique_row.
  apply andb_true_iff; split; apply bool_decide_eq_true; by apply count_unique.
Qed.

(** Replacing the row of an id by a row whose value no other row has
    keeps the values distinct. *)
Lemma NoDup_updated {B} (f : User.t → B) (u' : User.t) (l : list User.t) :
  NoDup (User.id <$> l) →
  NoDup (f <$> l) →
  (∀ v, v ∈ l → User.id v ≠ User.id u' → f v ≠ f u') →
  NoDup (f <$> ((λ v, if decide (User.id v = User.id u') then u' else v) <$> l)).
Proof.
  induction l as [|a l IH]; [constructor|].
  simpl. rewrite !NoDup_cons. intros [Ha Hids] [Hfa Hfs] Hother.
  assert (∀ v, v ∈ l → User.id v ≠ User.id u' → f v ≠ f u') as Hother'
    by (intros v Hv; apply Hother; by right).
  split; [|by apply IH].
  intros (v & Hv & (v0 & -> & Hin)%list_elem_of_fmap)%list_elem_of_fmap.
  destruct (decide (User.id a = User.id u')) as [Hau|Hau];
    destruct (decide (User.id v0 = User.id u')) as [Hvu|Hvu].
  - apply Ha. rewrite Hau, <- Hvu. by apply list_elem_of_fmap_2.
  - by apply (Hother' v0).
  - apply (Hother a); [left|done..].
  - apply Hfa. rewrite Hv. by apply list_elem_of_fmap_2.
Qed.

Lemma unique_users_updated d u' :
  NoDup (User.id <$> users d) →
  unique_users d →
  (∀ v, v ∈ users d → User.id v ≠ User.id u' →
        User.username v ≠ User.username u' ∧ User.email v ≠ User.email u') →
  unique_users (db_update_user u' d).
Proof.
  intros Hids [Hn He] Hother. split; simpl; apply NoDup_updated; try done.
  - intros v Hv Hid. by apply Hother.
  - intros v Hv Hid. by apply Hother.
Qed.

(** The query by username finds the written row when no other row has
    its username. *)
Lemma find_username_updated (u' : User.t) (l : list User.t) :
  User.id u' ∈ User.id <$> l →
  (∀ v, v ∈ l → User.id v ≠ User.id u' → User.username v ≠ User.username u') →
  List.find (λ v, bool_decide (User.username v = User.username u'))
            ((λ v, if decide (User.id v = User.id u') then u' else v) <$> l)
  = Some u'.
Proof.
  induction l as [|a l IH]; simpl; [by intros ?%elem_of_nil|].
  intros Hin Hother. destruct (decide (User.id a = User.id u')) as [Ha|Ha].
  - by rewrite bool_decide_eq_true_2.
  - rewrite bool_decide_eq_false_2 by (apply Hother; [left|done]).
    apply IH.
    + apply elem_of_cons in Hin as [?|?]; [congruence|done].
    + intros v Hv. apply Hother. by right.
Qed.

Section ProfileSaved.
Context `{Models} `{Forms}.

(** The fields of the profile form, and the password beside it. *)
Definition profile_fields : list string :=
  ["username"; "email"; "bio"; "image_url"; "header_image_url"; "password"].

(** A profile edit that sends every field of the form, with the user's
    password, a username and an email that no other user has: the row of
    the user is committed with the submitted username, email and bio and
    the submitted image addresses (the defaults for empty ones); its id
    and its password hash are as they were, no other row changes,
    nothing is flashed and the answer is a redirect to the page of the
    user. *)
Theorem profile_edit_saves w u request :
  logged_in w u →
  valid_submission UserProfileEditForm w request →
  (∀ field, field ∈ profile_fields → is_Some (form request !! field)) →
  NoDup (User.id <$> users (db w)) →
  unique_users (db w) →
  (∀ v, v ∈ users (db w) → User.id v ≠ User.id u →
        User.username v ≠ data request "username"
        ∧ User.email v ≠ data request "email") →
  check_password_hash (User.password u) (data request "password") = true →
  app route_profile w request =
    (mkWorld (db_update_user (edited request u) (db w))
             (session w) (csrf_secret w) (flashes w),
     Return (Redirect ("/users/" +:+ pretty (User.id u))))
  ∧ find_user (db_update_user (edited request u) (db w)) (User.id u)
    = Some (edited request u)
  ∧ User.password (edited request u) = User.password u
  ∧ (∀ v, v ∈ users (db w) → User.id v ≠ User.id u →
          v ∈ users (db_update_user (edited request u) (db w)))
  ∧ length (users (db_update_user (edited request u) (db w)))
    = length (users (db w)).
Proof.
  intros Hu (Hpost & Htok & Hok) _ Hids Huniq Hother Hpw.
  pose proof (logged_in_find _ _ Hu) as Hf.
  assert (User.id u ∈ User.id <$> users (db w)) as Hin.
  { unfold find_user in Hf. apply find_some in Hf as [Hin _].
    apply list_elem_of_fmap_2. by apply list_elem_of_In. }
  assert (unique_users (db_update_user (renamed request u) (db w))) as Hu1.
  { apply unique_users_updated; [done..|].
    intros v Hv Hid. split; [by apply Hother|].
    simpl. destruct Huniq as [_ He]. intros Heq.
    assert (v = u) as ->; [|done].
    apply find_some in Hf as [Hul _]. apply list_elem_of_In in Hul.
    apply list_elem_of_lookup in Hv as [i Hi]. apply list_elem_of_lookup in Hul as [j Hj].
    assert (i = j) as ->; [|congruence].
    eapply NoDup_lookup; [exact He|..]; rewrite list_lookup_fmap.
    - by rewrite Hi.
    - rewrite Hj. simpl. by rewrite Heq. }
  assert (unique_users (db_update_user (edited request u) (db w))) as Hu2.
  { apply unique_users_updated; [done..|]. intros v Hv Hid. by apply Hother. }
  split; [|split; [|split; [|split]]].
  - rewrite app_allowed by allowed Hpost.
    unfold logged_in in Hu. rewrite Hu.
    unfold view, handle_user_profile_edit, User_authenticate. run.
    rewrite decide_True by done. run.
    rewrite Htok, Hok. run.
    fold (renamed request u).
    change (User.id (renamed request u)) with (User.id u).
    change (User.username (renamed request u)) with (data request "username").
    rewrite (flush_ok_unique _ _ Hu1). run.
    assert (authenticate (db_update_user (renamed request u) (db w))
              (data request "username") (data request "password")
            = Some (renamed request u)) as ->.
    { unfold authenticate, db_update_user; simpl.
      change (data request "username") with (User.username (renamed request u)) at 1.
      change (User.id u) with (User.id (renamed request u)).
      rewrite find_username_updated; [by simpl; rewrite Hpw|done|].
      intros v Hv Hid. by apply Hother. }
    run. cbn [User.id User.set_email User.set_bio User.set_image_url
              User.set_header_image_url renamed User.set_username].
    rewrite !db_update_user_twice by done.
    fold (edited request u) in *.
    unfold edited in Hu2 |- *.
    cbn [User.id User.set_email User.set_bio User.set_image_url
              User.set_header_image_url renamed User.set_username
              User.username User.email User.password User.bio
              User.image_url User.header_image_url] in Hu2 |- *.
    rewrite (flush_ok_unique _ _ Hu2). done.
  - by apply (find_user_updated _ _ u).
  - done.
  - intros v Hv Hid. simpl. apply list_elem_of_fmap. exists v.
    by rewrite decide_False.
  - simpl. by rewrite length_fmap.
Qed.
End ProfileSaved.

(** [u2] changes username, email and bio, leaves the image addresses
    empty and gives the right password. *)
Lemma profile_edit_saves_witness :
  let request :=
    post [("csrf_token", "token"); ("username", "u3"); ("email", "u3@email.com");
          ("bio", "hello"); ("image_url", ""); ("header_image_url", "");
          ("password", "password")] in
  app route_profile (world_of test_database u2) request =
    (world_of (db_update_user (edited request u2) test_database) u2,
     Return (Redirect "/users/2"))
  ∧ find_user (db_update_user (edited request u2) test_database) 2
    = Some (User.mk 2 "u3" "u3@email.com" (User.password u2) "hello"
                    DEFAULT_IMAGE_URL DEFAULT_HEADER_IMAGE_URL).
Proof.
  cbv zeta.
  edestruct (profile_edit_saves (world_of test_database u2) u2
           (post [("csrf_token", "token"); ("username", "u3");
                  ("email", "u3@email.com"); ("bio", "hello");
                  ("image_url", ""); ("header_image_url", "");
                  ("password", "password")])) as (Happ & Hfind & _).
  - reflexivity.
  - repeat split; reflexivity.
  - intros field Hfield. unfold profile_fields in Hfield.
    repeat (apply elem_of_cons in Hfield as [->|Hfield];
            [eexists; vm_compute; reflexivity|]).
    by apply elem_of_nil in Hfield.
  - apply (bool_decide_unpack _); vm_compute; reflexivity.
  - split; apply (bool_decide_unpack _); vm_compute; reflexivity.
  - intros v [->|[->|[]%elem_of_nil]%elem_of_cons]%elem_of_cons Hid;
      [split; discriminate|by destruct Hid].
  - reflexivity.
  - split; [exact Happ|exact Hfind].
Defined.

(** * The pages

    The routes that only show something: the listing of the users, the
    pages of a user and the page of a message.  They answer GET alone. *)

(** What these pages hand to their templates. *)
Inductive PageValue :=
| PForm (name : string)
| PUser (u : User.t)
| PUsers (us : list User.t)
| PMessage (m : Message.t).

Inductive Page :=
| PageRedirect (location : string)
| PageTemplate (template : string) (context : list (string * PageValue)).

(** [column.like(pattern)]: the LIKE operator of the database, applied
    to a value and a pattern. *)
Class Sql := { sql_like : string → string → bool }.

Section Pages.
Context `{Sql}.

Definition page_unauthorized : M Page :=
  flash "Access unauthorized." "danger";; ret (PageRedirect "/").

(** [search] is [request.args.get('q')]: [None] when the query string
    has no [q]. *)
Definition list_users (search : option string) (g : G) : M Page :=
  match user g with
  | None => page_unauthorized
  | Some _ =>
      users ← match search with
              | None | Some "" => gets (λ c, users (orm c))
              | Some search =>
                  gets (λ c, filter (λ u, sql_like (User.username u)
                                                   ("%" +:+ search +:+ "%") = true)
                                    (users (orm c)))
              end;
      ret (PageTemplate "users/index.html"
             [("users", PUsers users); ("form", PForm "CSRFForm")])
  end.

Definition show_user (user_id : nat) (g : G) : M Page :=
  user' ← User_query_get_or_404 user_id;
  match user g with
  | None => page_unauthorized
  | Some _ =>
      ret (PageTemplate "users/show.html"
             [("user", PUser user'); ("form", PForm "CSRFForm")])
  end.

Definition show_following (user_id : nat) (g : G) : M Page :=
  user' ← User_query_get_or_404 user_id;
  match user g with
  | None => page_unauthorized
  | Some _ =>
      ret (PageTemplate "users/following.html"
             [("user", PUser user'); ("form", PForm "CSRFForm")])
  end.

Definition show_followers (user_id : nat) (g : G) : M Page :=
  user' ← User_query_get_or_404 user_id;
  match user g with
  | None => page_unauthorized
  | Some _ =>
      ret (PageTemplate "users/followers.html"
             [("user", PUser user'); ("form", PForm "CSRFForm")])
  end.

Definition show_message (message_id : nat) (g : G) : M Page :=
  match user g with
  | None => page_unauthorized
  | Some _ =>
      msg ← Message_query_get_or_404 message_id;
      ret (PageTemplate "messages/show.html"
             [("message", PMessage msg); ("form", PForm "CSRFForm")])
  end.

Definition show_likes_page (user_id : nat) (g : G) : M Page :=
  match user g with
  | None => page_unauthorized
  | Some _ =>
      user' ← User_query_get_or_404 user_id;
      ret (PageTemplate "users/liked.html"
             [("user", PUser user'); ("form", PForm "CSRFForm")])
  end.

(** The addresses of the pages; the query string of the listing is part
    of its address. *)
Inductive PageRoute :=
| route_list_users (q : option string)
| route_show_user (user_id : nat)
| route_show_following (user_id : nat)
| route_show_followers (user_id : nat)
| route_show_message (message_id : nat)
| route_show_likes_page (user_id : nat).

Definition page_view (r : PageRoute) : G → M Page :=
  match r with
  | route_list_users q => list_users q
  | route_show_user user_id => show_user user_id
  | route_show_following user_id => show_following user_id
  | route_show_followers user_id => show_followers user_id
  | route_show_message message_id => show_message message_id
  | route_show_likes_page user_id => show_likes_page user_id
  end.

(** One request for a page: as [app], with the routes of [@app.get]. *)
Definition page (r : PageRoute) (w : World) (request : Request) : World * Result Page :=
  let '(c, result) :=
    (g ← add_user_to_g;
     if decide (method request = GET) then page_view r g
     else raise MethodNotAllowed) (enter w) in
  (leave c, result).
End Pages.

(** A stand-in for LIKE on the patterns of the listing: the value
    contains what stands between the two [%]. *)
#[local] Instance test_sql : Sql := {|
  sql_like := λ value pattern,
    bool_decide (is_Some (String.index 0
                            (String.substring 1 (String.length pattern - 2) pattern)
                            value))
|}.

(** ** What the pages do *)

Section PageProperties.
Context `{Sql}.

Lemma page_run r w request :
  method request = GET →
  page r w request =
    let '(c, result) := page_view r (mkG (current_user w)) (enter w) in
    (leave c, result).
Proof.
  intros Hget. unfold page, bind at 1. rewrite add_user_to_g_enter.
  by rewrite decide_True.
Qed.

(** The pages only read.  Whatever the page, the requester, the method
    and the address, the request leaves the world as it was, except for
    the visitor who is sent to the homepage: that answer flashes "Access
    unauthorized." and leaves database and session as they were. *)
Theorem pages_only_read r w request :
  (page r w request).1 = w
  ∨ (current_user w = None
     ∧ page r w request =
         (flashed "danger" "Access unauthorized." w, Return (PageRedirect "/"))).
Proof.
  destruct (decide (method request = GET)) as [Hget|Hget].
  - rewrite page_run by done. destruct w as [d s k fl]. unfold flashed; simpl.
    destruct (current_user (mkWorld d s k fl)) as [u|] eqn:Hu;
      destruct r as [[[|a q]|]| | | | |]; simpl;
      unfold list_users, show_user, show_following, show_followers, show_message,
        show_likes_page, page_unauthorized; unfold_monad; simpl;
      repeat case_match; simplify_eq; simpl; auto.
  - left. unfold page, bind at 1. rewrite add_user_to_g_enter.
    rewrite decide_False by done. by destruct w.
Qed.

(** The pages of a user look the user up before they ask who is there,
    the page of a message and the page of the likes after.  So a visitor
    who is not logged in is told whether a user id exists -- "not found"
    for a missing one, the redirect for a stored one -- but gets the
    same redirect for every message id and on the page of the likes,
    stored or not. *)
Theorem user_pages_look_up_first w request :
  current_user w = None →
  method request = GET →
  let turned_away :=
    (flashed "danger" "Access unauthorized." w, Return (PageRedirect "/")) in
  (∀ user_id,
     match find_user (db w) user_id with
     | None =>
         page (route_show_user user_id) w request = (w, Raise NotFound)
         ∧ page (route_show_following user_id) w request = (w, Raise NotFound)
         ∧ page (route_show_followers user_id) w request = (w, Raise NotFound)
     | Some _ =>
         page (route_show_user user_id) w request = turned_away
         ∧ page (route_show_following user_id) w request = turned_away
         ∧ page (route_show_followers user_id) w request = turned_away
     end
     ∧ page (route_show_likes_page user_id) w request = turned_away)
  ∧ (∀ message_id, page (route_show_message message_id) w request = turned_away)
  ∧ (∀ q, page (route_list_users q) w request = turned_away).
Proof.
  intros Hu Hget. cbv zeta.
  split; [|split]; intros x; rewrite ?page_run by done; rewrite Hu;
    destruct w as [d s k fl]; unfold flashed; simpl; [|done..].
  split; [|done].
  unfold show_user, show_following, show_followers. unfold_monad. simpl.
  by destruct (find_user d x).
Qed.

(** The listing, for a user who is logged in: the users shown are stored
    users, in the order of the table; a query string without [q], or
    with an empty one, lists them all; otherwise a user is listed exactly
    when LIKE matches the username against the search between two [%]. *)
Theorem list_users_lists w u q request :
  logged_in w u →
  method request = GET →
  ∃ us,
    page (route_list_users q) w request =
      (w, Return (PageTemplate "users/index.html"
                    [("users", PUsers us); ("form", PForm "CSRFForm")]))
    ∧ us `sublist_of` users (db w)
    ∧ (default "" q = "" → us = users (db w))
    ∧ (default "" q ≠ "" →
       ∀ v, v ∈ us ↔
            v ∈ users (db w)
            ∧ sql_like (User.username v) ("%" +:+ default "" q +:+ "%") = true).
Proof.
  intros Hu Hget. unfold logged_in in Hu.
  destruct q as [[|a q]|]; rewrite page_run by done; rewrite Hu;
    destruct w as [d s k fl]; simpl; unfold_monad; simpl;
    eexists; (split; [reflexivity|]).
  - split; [done|]. split; [done|]. intros Hq. by destruct Hq.
  - split; [apply sublist_filter|]. split; [done|]. intros _ v.
    rewrite list_elem_of_filter. tauto.
  - split; [done|]. split; [done|]. intros Hq. by destruct Hq.
Qed.

(** A page shown to a user who is logged in shows the stored row of the
    requested id, and a missing row is "not found" on every page; the
    world stays as it is. *)
Theorem page_shows_the_requested_row w u request :
  logged_in w u →
  method request = GET →
  (∀ user_id,
     match find_user (db w) user_id with
     | Some v =>
         User.id v = user_id
         ∧ v ∈ users (db w)
         ∧ ∀ r template,
             (r, template) ∈ [(route_show_user user_id, "users/show.html");
                              (route_show_following user_id, "users/following.html");
                              (route_show_followers user_id, "users/followers.html");
                              (route_show_likes_page user_id, "users/liked.html")] →
             page r w request =
               (w, Return (PageTemplate template
                             [("user", PUser v); ("form", PForm "CSRFForm")]))
     | None =>
         ∀ r, r ∈ [route_show_user user_id; route_show_following user_id;
                   route_show_followers user_id; route_show_likes_page user_id] →
              page r w request = (w, Raise NotFound)
     end)
  ∧ (∀ message_id,
       match find_message (db w) message_id with
       | Some m =>
           Message.id m = message_id
           ∧ m ∈ messages (db w)
           ∧ page (route_show_message message_id) w request =
               (w, Return (PageTemplate "messages/show.html"
                             [("message", PMessage m); ("form", PForm "CSRFForm")]))
       | None => page (route_show_message message_id) w request = (w, Raise NotFound)
       end).
Proof.
  intros Hu Hget. unfold logged_in in Hu. split.
  - intros user_id. destruct (find_user (db w) user_id) as [v|] eqn:Hv.
    + split; [by eapply find_user_id|]. split.
      { unfold find_user in Hv. apply find_some in Hv as [Hin _].
        by apply list_elem_of_In. }
      intros r template Hr. rewrite page_run by done. rewrite Hu.
      destruct w as [d s k fl]. simpl in Hv.
      repeat (apply elem_of_cons in Hr as [Hr|Hr]; [simplify_eq; simpl;
        unfold show_user, show_following, show_followers, show_likes_page;
        unfold_monad; simpl; by rewrite Hv|]).
      by apply elem_of_nil in Hr.
    + intros r Hr. rewrite page_run by done. rewrite Hu.
      destruct w as [d s k fl]. simpl in Hv.
      repeat (apply elem_of_cons in Hr as [Hr|Hr]; [simplify_eq; simpl;
        unfold show_user, show_following, show_followers, show_likes_page;
        unfold_monad; simpl; by rewrite Hv|]).
      by apply elem_of_nil in Hr.
  - intros message_id. rewrite page_run by done. rewrite Hu.
    destruct w as [d s k fl]. simpl.
    unfold show_message. unfold_monad. simpl.
    destruct (find_message d message_id) as [m|] eqn:Hm; [|done].
    split; [by eapply find_message_id|]. split; [|done].
    unfold find_message in Hm. apply find_some in Hm as [Hin _].
    by apply list_elem_of_In.
Qed.
End PageProperties.

(** A visitor asks for the pages of the users 2 and 5 of the test
    database, and for the messages 1 and 7. *)
Lemma user_pages_look_up_first_witness :
  page (route_show_user 2) (anonymous test_database) get
    = (flashed "danger" "Access unauthorized." (anonymous test_database),
       Return (PageRedirect "/"))
  ∧ page (route_show_user 5) (anonymous test_database) get
    = (anonymous test_database, Raise NotFound)
  ∧ page (route_show_message 1) (anonymous test_database) get
    = page (route_show_message 7) (anonymous test_database) get.
Proof.
  destruct (user_pages_look_up_first (anonymous test_database) get
              eq_refl eq_refl) as (Husers & Hmessages & _).
  pose proof (Husers 2) as [(H2 & _) _]. pose proof (Husers 5) as [(H5 & _) _].
  split; [exact H2|]. split; [exact H5|].
  by rewrite !Hmessages.
Defined.

(** [u1] searches for "2", and lists without a search. *)
Lemma list_users_lists_witness :
  page (route_list_users (Some "2")) (world_of test_database u1) get
    = (world_of test_database u1,
       Return (PageTemplate "users/index.html"
                 [("users", PUsers [u2]); ("form", PForm "CSRFForm")]))
  ∧ ∃ us,
      page (route_list_users None) (world_of test_database u1) get
        = (world_of test_database u1,
           Return (PageTemplate "users/index.html"
                     [("users", PUsers us); ("form", PForm "CSRFForm")]))
      ∧ us = [u1; u2].
Proof.
  split; [reflexivity|].
  destruct (list_users_lists (world_of test_database u1) u1 None get
              eq_refl eq_refl) as (us & Hpage & _ & Hall & _).
  exists us. split; [exact Hpage|]. by apply Hall.
Defined.

(** [u1] looks at the page of [u2] and at the message [m1]. *)
Lemma page_shows_the_requested_row_witness :
  page (route_show_following 2) (world_of test_database u1) get
    = (world_of test_database u1,
       Return (PageTemplate "users/following.html"
                 [("user", PUser u2); ("form", PForm "CSRFForm")]))
  ∧ page (route_show_message 1) (world_of test_database u1) get
    = (world_of test_database u1,
       Return (PageTemplate "messages/show.html"
                 [("message", PMessage m1); ("form", PForm "CSRFForm")]))
  ∧ page (route_show_likes_page 9) (world_of test_database u1) get
    = (world_of test_database u1, Raise NotFound).
Proof.
  destruct (page_shows_the_requested_row (world_of test_database u1) u1 get
              eq_refl eq_refl) as (Husers & Hmessages).
  pose proof (Husers 2) as (_ & _ & H2). pose proof (Husers 9) as H9.
  pose proof (Hmessages 1) as (_ & _ & H1).
  split; [apply H2; repeat constructor|]. split; [exact H1|]. apply H9. repeat constructor.
Defined.

(** ** Which route writes what *)

(** A computation keeps a property of the context, whatever it
    returns. *)
Definition keeps {A} (P : Ctx → Prop) (m : M A) : Prop :=
  ∀ c, P c → P (m c).1.

(** A table is the same in the unit of work and in the committed
    database. *)
Definition table_is {A} (table : Database → A) (x : A) (c : Ctx) : Prop :=
  table (orm c) = x ∧ table (store c) = x.

Definition session_is (s : gmap string nat) (c : Ctx) : Prop :=
  c_session c = s.

(** The routes whose handler has a statement that writes the table, or
    the session. *)
Definition writes_users (r : Route) : bool :=
  match r with
  | route_signup | route_profile | route_delete_user => true
  | _ => false
  end.

Definition writes_messages (r : Route) : bool :=
  match r with
  | route_add_message | route_delete_message _ | route_delete_user => true
  | _ => false
  end.

Definition writes_follows (r : Route) : bool :=
  match r with
  | route_start_following _ | route_stop_following _ | route_delete_user => true
  | _ => false
  end.

Definition writes_likes (r : Route) : bool :=
  match r with
  | route_like _ | route_remove_like _ | route_delete_message _
  | route_delete_user => true
  | _ => false
  end.

Definition writes_session (r : Route) : bool :=
  match r with
  | route_signup | route_login | route_logout | route_delete_user => true
  | _ => false
  end.

Lemma keeps_ret {A} P (a : A) : keeps P (ret a).
Proof. by intros c Hc. Qed.

Lemma keeps_raise {A} P e : keeps P (raise (A:=A) e).
Proof. by intros c Hc. Qed.

Lemma keeps_gets {A} P (f : Ctx → A) : keeps P (gets f).
Proof. by intros c Hc. Qed.

Lemma keeps_bind {A B} P (m : M A) (f : A → M B) :
  keeps P m → (∀ a, keeps P (f a)) → keeps P (bind m f).
Proof.
  intros Hm Hf c Hc. unfold bind. specialize (Hm c Hc).
  destruct (m c) as [c' [a|e]]; simpl in *; [by apply Hf|done].
Qed.

Lemma keeps_try_except {A} P (body handler : M A) e :
  keeps P body → keeps P handler → keeps P (try_except body e handler).
Proof.
  intros Hb Hh c Hc. unfold try_except. specialize (Hb c Hc).
  destruct (body c) as [c' [a|e']]; simpl in *; [done|].
  case_decide; [by apply Hh|done].
Qed.

Lemma keeps_for_each {A} P (l : list A) (body : A → M unit) :
  (∀ x, keeps P (body x)) → keeps P (for_each l body).
Proof.
  intros Hb. induction l as [|x l IH]; simpl; [apply keeps_ret|].
  by apply keeps_bind.
Qed.

(** A statement that does not touch what the property is about. *)
Ltac keeps_statement :=
  let c := fresh "c" in
  let Hc := fresh "Hc" in
  intros c Hc; unfold table_is, session_is in *;
  simpl; repeat case_match; simpl;
  first [ done | destruct Hc; split; congruence ].

Ltac head_of m :=
  lazymatch m with
  | ?f _ => head_of f
  | _ => m
  end.

(** One step into a handler. *)
Ltac keeps_step :=
  lazymatch goal with
  | |- keeps _ (bind _ _) => apply keeps_bind; [|intros ?]
  | |- keeps _ (ret _) => apply keeps_ret
  | |- keeps _ (raise _) => apply keeps_raise
  | |- keeps _ (gets _) => apply keeps_gets
  | |- keeps _ (try_except _ _ _) => apply keeps_try_except
  | |- keeps _ (for_each _ _) => apply keeps_for_each; intros ?; cbv beta
  | |- keeps _ (modify _) => keeps_statement
  | |- keeps _ (match ?x with _ => _ end) => destruct x
  | |- keeps _ (λ _, _) => keeps_statement
  | |- keeps _ ?m => let h := head_of m in unfold h
  end.

Ltac keeps_view r :=
  destruct r; intros Hr; try discriminate Hr; simpl;
  unfold signup, login, logout, start_following, stop_following,
    handle_user_profile_edit, delete_user, add_message, delete_message,
    like, remove_like, homepage;
  repeat keeps_step.

Section Frames.
Context `{Models} `{Forms}.

Lemma keeps_handle P r request :
  (∀ g, keeps P (view r g request)) → keeps P (handle r request).
Proof.
  intros Hview. unfold handle, add_user_to_g.
  repeat keeps_step; apply Hview.
Qed.

Lemma keeps_users r g request x :
  writes_users r = false → keeps (table_is users x) (view r g request).
Proof. keeps_view r. Qed.

Lemma keeps_messages r g request x :
  writes_messages r = false → keeps (table_is messages x) (view r g request).
Proof. keeps_view r. Qed.

Lemma keeps_follows r g request x :
  writes_follows r = false → keeps (table_is follows x) (view r g request).
Proof. keeps_view r. Qed.

Lemma keeps_likes r g request x :
  writes_likes r = false → keeps (table_is likes x) (view r g request).
Proof. keeps_view r. Qed.

Lemma keeps_session r g request s :
  writes_session r = false → keeps (session_is s) (view r g request).
Proof. keeps_view r. Qed.

(** Every table has its routes: a request to any other route, whatever
    the requester, the method and the form, leaves the table as it was.
    Users are written by signup, profile edit and the deletion of the
    account; messages by posting and the two deletions; follows by
    following, unfollowing and the deletion of the account; likes by
    liking, unliking and the two deletions.  The session is written by
    signup, login, logout and the deletion of the account.  In
    particular the homepage writes none of them. *)
Theorem tables_have_their_routes r w request :
  (writes_users r = false → users (db (app r w request).1) = users (db w))
  ∧ (writes_messages r = false →
     messages (db (app r w request).1) = messages (db w))
  ∧ (writes_follows r = false → follows (db (app r w request).1) = follows (db w))
  ∧ (writes_likes r = false → likes (db (app r w request).1) = likes (db w))
  ∧ (writes_session r = false → session (app r w request).1 = session w).
Proof.
  assert (∀ P, (∀ g, keeps P (view r g request)) → P (enter w) →
               P (handle r request (enter w)).1) as Hrun.
  { intros P HP. by apply keeps_handle. }
  unfold app.
  repeat split; intros Hr.
  - destruct (Hrun (table_is users (users (db w)))) as [_ Hs];
      [intros; by apply keeps_users|done|].
    by destruct (handle r request (enter w)).
  - destruct (Hrun (table_is messages (messages (db w)))) as [_ Hs];
      [intros; by apply keeps_messages|done|].
    by destruct (handle r request (enter w)).
  - destruct (Hrun (table_is follows (follows (db w)))) as [_ Hs];
      [intros; by apply keeps_follows|done|].
    by destruct (handle r request (enter w)).
  - destruct (Hrun (table_is likes (likes (db w)))) as [_ Hs];
      [intros; by apply keeps_likes|done|].
    by destruct (handle r request (enter w)).
  - pose proof (Hrun (session_is (session w))) as Hs. unfold session_is in Hs.
    destruct (handle r request (enter w)); simpl in *.
    apply Hs; [intros; by apply keeps_session|done].
Qed.
End Frames.

(** [u2] likes the message of [u1]: a row of likes, and nothing else. *)
Lemma tables_have_their_routes_witness :
  let w := world_of test_database u2 in
  let w' := (app (route_like 1) w
               (post [("csrf_token", "token"); ("came-from", "/")])).1 in
  users (db w') = users (db w)
  ∧ messages (db w') = messages (db w)
  ∧ follows (db w') = follows (db w)
  ∧ session w' = session w
  ∧ likes (db w') = [Like.mk 2 1].
Proof.
  cbv zeta.
  destruct (tables_have_their_routes (route_like 1) (world_of test_database u2)
              (post [("csrf_token", "token"); ("came-from", "/")]))
    as (Hu & Hm & Hf & _ & Hs).
  split; [exact (Hu eq_refl)|]. split; [exact (Hm eq_refl)|].
  split; [exact (Hf eq_refl)|]. split; [exact (Hs eq_refl)|].
  vm_compute. reflexivity.
Defined.
